(** * Stage classification and adaptive thresholds of the solar-plant
      monitoring pipeline

    Shallow embedding of the decision logic of

    - [stage3_rule_based_analysis.py] and [stage3_working.py]
      (the two [determine_stage] functions), and
    - [stage5_self_learning.py] and [stage5_working.py]
      (the feedback-driven threshold tables),

    followed by the properties of that logic.

    Similarity scores are Python floats, that is IEEE-754 binary64 values.
    They are modelled by [spec_float] at precision 53 / maximal exponent
    1024, so that NaN, the two infinities and the signed zeros are all
    present and every comparison is the IEEE comparison. *)

From Stdlib Require Import ZArith List String Ascii Bool Lia.
From Stdlib Require Import SpecFloat.
From Stdlib Require Import Permutation.
Import ListNotations.

Local Open Scope Z_scope.

(** ** Binary64 floats *)

Module F64.

Definition float : Type := spec_float.

Definition prec : Z := 53.
Definition emax : Z := 1024.

Definition nan : float := S754_nan.
Definition pos_inf : float := S754_infinity false.
Definition neg_inf : float := S754_infinity true.
Definition zero : float := S754_zero false.

Definition add : float -> float -> float := SFadd prec emax.
Definition sub : float -> float -> float := SFsub prec emax.
Definition mul : float -> float -> float := SFmul prec emax.
Definition div : float -> float -> float := SFdiv prec emax.
Definition sqrt : float -> float := SFsqrt prec emax.

(** [a < b], [a <= b] and [a == b] as Python evaluates them: [false] as soon
    as one side is NaN. *)
Definition ltb : float -> float -> bool := SFltb.
Definition leb : float -> float -> bool := SFleb.
Definition eqb : float -> float -> bool := SFeqb.

(** The same comparisons as propositions. *)
Definition lt (a b : float) : Prop := ltb a b = true.
Definition le (a b : float) : Prop := leb a b = true.

Definition is_nan (x : float) : bool :=
  match x with S754_nan => true | _ => false end.

Definition is_finite (x : float) : bool :=
  match x with S754_zero _ | S754_finite _ _ _ => true | _ => false end.

(** The float nearest to an integer ([float(n)]). *)
Definition of_Z (n : Z) : float := binary_normalize prec emax n 0 false.

(** The float denoted by a decimal literal with [k] digits after the point:
    [dec n k] is the float nearest to [n / 10^k] (ties to even), which is how
    a literal such as [0.80] is read.  Numerator and denominator are exact
    for every literal of the scripts. *)
Definition dec (n : Z) (k : nat) : float := div (of_Z n) (of_Z (10 ^ Z.of_nat k)).

End F64.

Definition float : Type := F64.float.

(** ** Construction stages *)

(** The three labels the classifiers return, in the order of the list
    [stages] of the learner scripts. *)
Inductive stage : Type := foundation | mounting | installation.

Definition stage_name (s : stage) : string :=
  match s with
  | foundation => "foundation"
  | mounting => "mounting"
  | installation => "installation"
  end.

(** Construction maturity: Foundation < Mounting < Installation. *)
Definition maturity (s : stage) : Z :=
  match s with foundation => 0 | mounting => 1 | installation => 2 end.

(** ** Stage 3: rule-based classification *)

(** [stage3_rule_based_analysis.py]:
<<
def determine_stage(similarity_value):
    if similarity_value > 0.80:
        return "installation"
    elif 0.60 <= similarity_value <= 0.80:
        return "mounting"
    else:
        return "foundation"
>> *)
Module Stage3RuleBased.

Definition determine_stage (similarity_value : float) : stage :=
  if F64.ltb (F64.dec 80 2) similarity_value then installation
  else if F64.leb (F64.dec 60 2) similarity_value
          && F64.leb similarity_value (F64.dec 80 2) then mounting
  else foundation.

End Stage3RuleBased.

(** [stage3_working.py]:
<<
def determine_stage(similarity):
    if similarity > 0.80:
        return "installation"
    elif similarity >= 0.70:
        return "mounting"
    else:
        return "foundation"
>> *)
Module Stage3Working.

Definition determine_stage (similarity : float) : stage :=
  if F64.ltb (F64.dec 80 2) similarity then installation
  else if F64.leb (F64.dec 70 2) similarity then mounting
  else foundation.

End Stage3Working.

(** ** Library functions used by the learner scripts

    [numpy.mean], [numpy.std] and the two roundings to three decimals are
    not part of the repository.  They are given here as the binary64
    computations the libraries carry out, so that the scripts can be
    evaluated on concrete feedback logs. *)

Module Lib.

(** The inner loop of [numpy.add.reduce] on a contiguous array of float64,
    numpy's pairwise summation:
<<
pairwise_sum(a, n):
    if n < 8:
        res = 0.
        for i in range(n): res += a[i]
        return res
    elif n <= 128:
        r[0..7] = a[0..7]
        for (i = 8; i < n - n % 8; i += 8):
            r[j] += a[i + j]                    (j = 0..7)
        res = ((r[0] + r[1]) + (r[2] + r[3])) + ((r[4] + r[5]) + (r[6] + r[7]))
        for (; i < n; i++): res += a[i]
        return res
    else:
        n2 = n / 2;  n2 -= n2 % 8
        return pairwise_sum(a, n2) + pairwise_sum(a + n2, n - n2)
>> *)

(** [res += a[i]] over the elements of [l], in index order. *)
Definition sum_loop (res : float) (l : list float) : float :=
  fold_left F64.add l res.

(** [r[j] += a[j]] for the eight accumulators. *)
Fixpoint add_lanes (r a : list float) : list float :=
  match r, a with
  | x :: r', y :: a' => F64.add x y :: add_lanes r' a'
  | _, _ => r
  end.

(** [blocks] rounds of the unrolled loop: the accumulators, and the
    elements not yet added. *)
Fixpoint unrolled_loop (blocks : nat) (r l : list float) : list float * list float :=
  match blocks with
  | O => (r, l)
  | S blocks' => unrolled_loop blocks' (add_lanes r (firstn 8 l)) (skipn 8 l)
  end.

Definition lane (r : list float) (j : nat) : float := nth j r F64.zero.

(** The branch [8 <= n <= 128]. *)
Definition block_sum (l : list float) : float :=
  let n := List.length l in
  let rl := unrolled_loop (n / 8 - 1) (firstn 8 l) (skipn 8 l) in
  let r := fst rl in
  sum_loop
    (F64.add
       (F64.add (F64.add (lane r 0) (lane r 1)) (F64.add (lane r 2) (lane r 3)))
       (F64.add (F64.add (lane r 4) (lane r 5)) (F64.add (lane r 6) (lane r 7))))
    (snd rl).

(** [depth] bounds the nesting of the recursive calls; a list is split into
    two shorter ones, so [depth = len(l)] is never used up
    ([pairwise_sum_depth] below). *)
Fixpoint pairwise_sum (depth : nat) (l : list float) : float :=
  let n := List.length l in
  if (n <? 8)%nat then sum_loop F64.zero l
  else if (n <=? 128)%nat then block_sum l
  else match depth with
       | O => block_sum l
       | S depth' =>
           let n2 := (n / 2 - (n / 2) mod 8)%nat in
           F64.add (pairwise_sum depth' (firstn n2 l))
                   (pairwise_sum depth' (skipn n2 l))
       end.

(** [numpy.sum] of a list of floats: the reduction starts from the
    identity [0.0] of [add] and adds the pairwise sum of the array to it.
    (So the sum of an empty list, and of zeros of either sign, is [0.0],
    whichever zero the short loop starts from: [np_sum_start] below.) *)
Definition np_sum (l : list float) : float :=
  F64.add F64.zero (pairwise_sum (List.length l) l).

Definition flen (l : list float) : float := F64.of_Z (Z.of_nat (List.length l)).

(** [numpy.mean(l)]: the sum divided by the number of elements. *)
Definition np_mean (l : list float) : float := F64.div (np_sum l) (flen l).

(** [numpy.std(l)] with its default [ddof=0]:
    [sqrt(mean(abs(x - x.mean())**2))], the divisor being [len(l)]. *)
Definition np_std (l : list float) : float :=
  let arrmean := np_mean l in
  let x := map (fun a => F64.sub a arrmean) l in
  let x2 := map (fun d => F64.mul d d) x in
  F64.sqrt (F64.div (np_sum x2) (flen l)).

(** Nearest integer to [m / 2^k] for [0 < k], ties to the even integer. *)
Definition rne_shift (m k : Z) : Z :=
  let q := Z.shiftr m k in
  let r := m - Z.shiftl q k in
  let half := Z.shiftl 1 (k - 1) in
  if r <? half then q
  else if half <? r then q + 1
  else if Z.even q then q else q + 1.

(** The float nearest to the fraction [n / d], with sign [s]. *)
Definition quot (s : bool) (n : Z) (d : positive) : float :=
  match n with
  | Zpos p => F64.div (S754_finite s p 0) (S754_finite false d 0)
  | _ => S754_zero s
  end.

(** Python's [round(x, 3)] on a [float]: the exact value of [x] is rounded
    to the nearest multiple of [10^-3] (ties to even), and the float nearest
    to that decimal is returned. *)
Definition py_round3 (x : float) : float :=
  match x with
  | S754_finite s m e =>
      if 0 <=? e then x
      else quot s (rne_shift (Zpos m * 1000) (- e)) 1000
  | _ => x
  end.

(** [numpy.rint]: nearest integral float, ties to even. *)
Definition np_rint (x : float) : float :=
  match x with
  | S754_finite s m e =>
      if 0 <=? e then x
      else match rne_shift (Zpos m) (- e) with
           | Zpos n => F64.of_Z (if s then Zneg n else Zpos n)
           | _ => S754_zero s
           end
  | _ => x
  end.

(** [round(x, 3)] on a [numpy.float64], which numpy documents as
    [rint(x * 10**3) / 10**3]. *)
Definition np_round3 (x : float) : float :=
  F64.div (np_rint (F64.mul x (F64.of_Z 1000))) (F64.of_Z 1000).

End Lib.

(** ** Text cells *)

Local Open Scope string_scope.

(** [str.lower] on the letters A to Z.  The literals the scripts compare
    with ("yes", "no" and the three stage names) contain no letter that is
    the lower case of a character outside ASCII, so the comparison results
    are those of Python. *)
Definition lower_ascii (c : ascii) : ascii :=
  let n := nat_of_ascii c in
  if ((65 <=? n) && (n <=? 90))%nat then ascii_of_nat (n + 32) else c.

Fixpoint lower (s : string) : string :=
  match s with
  | EmptyString => EmptyString
  | String c s' => String (lower_ascii c) (lower s')
  end.

(** A cell of a text column: [Some s] holds the text [s], [None] is the
    missing value (NaN).  In a CSV file [Some s] is a field of text [s] and
    [None] an empty field. *)
Definition cell : Type := option string.

(** [column.fillna("")] *)
Definition fillna_empty (c : cell) : cell :=
  match c with Some s => Some s | None => Some "" end.

(** [column.str.lower()]: a missing value stays missing. *)
Definition str_lower (c : cell) : cell := option_map lower c.

(** [column == literal]: a missing value equals no literal. *)
Definition cell_eqb (c : cell) (lit : string) : bool :=
  match c with Some s => String.eqb s lit | None => false end.

(** ** What [pandas.read_csv] makes of a column

    [pd.read_csv] is called with its defaults.  It reads a field as missing
    when its text is one of the NA spellings, and it gives a column the
    first of the types number, boolean, string that fits all the fields that
    are not missing.  The accessor [.str] exists on columns of strings
    only. *)

Module Pandas.

(** The default NA spellings. *)
Definition na_values : list string :=
  [ ""; "#N/A"; "#N/A N/A"; "#NA"; "-1.#IND"; "-1.#QNAN"; "-NaN"; "-nan";
    "1.#IND"; "1.#QNAN"; "<NA>"; "N/A"; "NA"; "NULL"; "NaN"; "None"; "n/a";
    "nan"; "null" ].

Definition is_na (s : string) : bool := existsb (String.eqb s) na_values.

(** The value of a field once read. *)
Definition read_cell (c : cell) : cell :=
  match c with
  | Some s => if is_na s then None else Some s
  | None => None
  end.

Definition is_missing (c : cell) : bool :=
  match c with None => true | Some _ => false end.

Definition is_digit (c : ascii) : bool :=
  let n := nat_of_ascii c in ((48 <=? n) && (n <=? 57))%nat.

(** C's [isspace]: the blank and the characters 9 to 13. *)
Definition is_space (c : ascii) : bool :=
  let n := nat_of_ascii c in ((n =? 32) || ((9 <=? n) && (n <=? 13)))%nat.

Definition is_sign (c : ascii) : bool :=
  let n := nat_of_ascii c in ((n =? 43) || (n =? 45))%nat.

Definition is_exponent_mark (c : ascii) : bool :=
  let n := nat_of_ascii c in ((n =? 101) || (n =? 69))%nat.

Definition is_point (c : ascii) : bool := (nat_of_ascii c =? 46)%nat.

(** The rest of [s] after its leading characters that satisfy [p]. *)
Fixpoint skip (p : ascii -> bool) (s : string) : string :=
  match s with
  | String c s' => if p c then skip p s' else s
  | EmptyString => s
  end.

Definition skip_sign (s : string) : string :=
  match s with
  | String c s' => if is_sign c then s' else s
  | EmptyString => s
  end.

Definition starts_with (p : ascii -> bool) (s : string) : bool :=
  match s with
  | String c _ => p c
  | EmptyString => false
  end.

Definition tail (s : string) : string :=
  match s with
  | String _ s' => s'
  | EmptyString => s
  end.

(** The fraction, if the text goes on with a point: whether it has a digit,
    and the rest. *)
Definition fraction (p : string) : bool * string :=
  if starts_with is_point p
  then (starts_with is_digit (tail p), skip is_digit (tail p))
  else (false, p).

(** The exponent: it is read only if the mark and the optional sign are
    followed by a digit. *)
Definition exponent (p : string) : string :=
  if starts_with is_exponent_mark p
  then let q := skip_sign (tail p) in
       if starts_with is_digit q then skip is_digit q else p
  else p.

(** The tokenizer's [to_double]: blanks, an optional sign, digits with an
    optional point among them (at least one digit), an optional exponent,
    blanks, and nothing else. *)
Definition decimal_number (s : string) : bool :=
  let p := skip_sign (skip is_space s) in
  let int_digit := starts_with is_digit p in
  let f := fraction (skip is_digit p) in
  (int_digit || fst f)
  && match skip is_space (exponent (snd f)) with
     | EmptyString => true
     | String _ _ => false
     end.

(** The spellings of the infinities, compared without regard to case. *)
Definition infinity_words : list string :=
  [ "inf"; "+inf"; "-inf"; "infinity"; "+infinity"; "-infinity" ].

Definition reads_as_number (s : string) : bool :=
  decimal_number s || existsb (String.eqb (lower s)) infinity_words.

(** The default true and false values. *)
Definition boolean_words : list string :=
  [ "True"; "TRUE"; "true"; "False"; "FALSE"; "false" ].

Definition reads_as_boolean (s : string) : bool :=
  existsb (String.eqb s) boolean_words.

(** The type of a column with at least one row, from its cells as read: a
    column without any value is a column of numbers (float64, all NaN). *)
Inductive column_type : Type := Numbers | Booleans | Strings.

Definition all_values (p : string -> bool) (column : list cell) : bool :=
  forallb (fun c => match c with Some s => p s | None => true end) column.

Definition type_of (column : list cell) : column_type :=
  if all_values reads_as_number column then Numbers
  else if all_values reads_as_boolean column then Booleans
  else Strings.

(** [column.str]: pandas raises [AttributeError] ("Can only use .str
    accessor with string values") unless the column holds strings; the
    columns of a frame without rows pass. *)
Definition str_accessor (column : list cell) : bool :=
  match column with
  | [] => true
  | _ => match type_of column with Strings => true | _ => false end
  end.

(** [column.fillna("").str]: a missing value is replaced by a string, after
    which the column holds a string and [.str] exists. *)
Definition filled_str_accessor (column : list cell) : bool :=
  str_accessor column || existsb is_missing column.

End Pandas.

(** ** Feedback log and threshold table *)

(** One row of [results/feedback_log.csv], restricted to the columns the
    learner reads: the fields of the three columns it treats as text, and
    the number in the column [similarity]. *)
Record row : Type := mkRow {
  predicted_stage : cell;
  similarity : float;
  is_correct : cell;
  corrected_stage : cell
}.

(** [pd.read_csv(feedback_log)]: the rows with their fields read. *)
Definition read_row (r : row) : row :=
  {| predicted_stage := Pandas.read_cell (predicted_stage r);
     similarity := similarity r;
     is_correct := Pandas.read_cell (is_correct r);
     corrected_stage := Pandas.read_cell (corrected_stage r) |}.

Definition read_csv (rows : list row) : list row := map read_row rows.

(** The value stored per stage in the table of recommendations. *)
Record threshold_band : Type := mkBand {
  mean_similarity : float;
  std_dev : float;
  recommended_min : float;
  recommended_max : float;
  sample_size : nat
}.

(** A Python [dict] with string keys, in insertion order. *)
Definition dict (V : Type) : Type := list (string * V).

Fixpoint dict_get {V : Type} (k : string) (d : dict V) : option V :=
  match d with
  | [] => None
  | (k', v) :: d' => if String.eqb k' k then Some v else dict_get k d'
  end.

(** [d[k] = v]: replaces the value of an existing key in place, otherwise
    appends the key. *)
Fixpoint dict_set {V : Type} (k : string) (v : V) (d : dict V) : dict V :=
  match d with
  | [] => [(k, v)]
  | (k', v') :: d' =>
      if String.eqb k' k then (k, v) :: d' else (k', v') :: dict_set k v d'
  end.

Definition threshold_table : Type := dict threshold_band.

(** [stages = ["foundation", "mounting", "installation"]] *)
Definition stages : list string := ["foundation"; "mounting"; "installation"].

(** Exceptions that end a script with a traceback. *)
Inductive exn : Type :=
  | KeyError | TypeError | ValueError | ZeroDivisionError | AttributeError.

(** How a run of a learner script ends: the table it dumps to
    [adaptive_thresholds.json], or [raise SystemExit(code)], which ends the
    process before anything is written, or an exception that nothing
    catches, which ends it likewise, with a traceback and status 1. *)
Inductive outcome : Type :=
  | Saved (table : threshold_table)
  | SystemExit (code : Z)
  | Raised (e : exn).

Definition exits (o : outcome) : bool :=
  match o with Saved _ => false | SystemExit _ | Raised _ => true end.

(** The loop body shared by both learner scripts, over the statistics and
    the rounding each of them calls. *)
Section ThresholdLoop.

Variable mean std : list float -> float.
Variable round3 : float -> float.

Definition band_of (sims : list float) : threshold_band :=
  let mean_sim := mean sims in
  let std_sim := std sims in
  {| mean_similarity := round3 mean_sim;
     std_dev := round3 std_sim;
     recommended_min := round3 (F64.sub mean_sim std_sim);
     recommended_max := round3 (F64.add mean_sim std_sim);
     sample_size := List.length sims |}.

(** Scores of the rows of [correct] predicted as [stage], then of the rows
    of [incorrect] corrected to [stage]. *)
Definition sims_of (correct incorrect : list row) (stage : string) : list float :=
  map similarity (filter (fun r => cell_eqb (predicted_stage r) stage) correct)
  ++ map similarity (filter (fun r => cell_eqb (corrected_stage r) stage) incorrect).

Definition loop_step (correct incorrect : list row)
    (table : threshold_table) (stage : string) : threshold_table :=
  let sims := sims_of correct incorrect stage in
  if (0 <? List.length sims)%nat then dict_set stage (band_of sims) table else table.

Definition threshold_loop (correct incorrect : list row) : threshold_table :=
  fold_left (loop_step correct incorrect) stages [].

End ThresholdLoop.

(** ** Stage 5: [stage5_self_learning.py] *)

Module Stage5SelfLearning.

(** The cleaning block:
<<
df["is_correct"] = df["is_correct"].fillna("").str.lower()
df["predicted_stage"] = df["predicted_stage"].str.lower()
df["corrected_stage"] = df["corrected_stage"].fillna("").str.lower()
>>
    It raises [AttributeError] at the first [.str] that does not exist. *)
Definition cleanable (df : list row) : bool :=
  Pandas.filled_str_accessor (map is_correct df)
  && Pandas.str_accessor (map predicted_stage df)
  && Pandas.filled_str_accessor (map corrected_stage df).

(** The cleaning of one row.  (In a column of numbers or booleans that
    [fillna] has made cleanable, [.str.lower()] leaves NaN where the number
    or boolean was; the text kept here for it is, like NaN, equal to none of
    the literals the script compares with.) *)
Definition clean (r : row) : row :=
  {| predicted_stage := str_lower (predicted_stage r);
     similarity := similarity r;
     is_correct := str_lower (fillna_empty (is_correct r));
     corrected_stage := str_lower (fillna_empty (corrected_stage r)) |}.

Definition correct (df : list row) : list row :=
  filter (fun r => cell_eqb (is_correct r) "yes") df.

Definition incorrect (df : list row) : list row :=
  filter (fun r => cell_eqb (is_correct r) "no") df.

(** The [for stage in stages] loop; [mean_sim] and [std_sim] are converted
    with [float(...)], so [round] is Python's. *)
Definition stage_sims (correct incorrect : list row) (stage : string) : list float :=
  map similarity (filter (fun r => cell_eqb (predicted_stage r) stage) correct)
  ++ map similarity (filter (fun r => cell_eqb (corrected_stage r) stage) incorrect).

Definition stage_thresholds (correct incorrect : list row) : threshold_table :=
  fold_left
    (fun table stage =>
       let sims := stage_sims correct incorrect stage in
       if (0 <? List.length sims)%nat then
         let mean_sim := Lib.np_mean sims in
         let std_sim := Lib.np_std sims in
         dict_set stage
           {| mean_similarity := Lib.py_round3 mean_sim;
              std_dev := Lib.py_round3 std_sim;
              recommended_min := Lib.py_round3 (F64.sub mean_sim std_sim);
              recommended_max := Lib.py_round3 (F64.add mean_sim std_sim);
              sample_size := List.length sims |}
           table
       else table)
    stages [].

(** The whole script; [feedback_log] is [None] when the file does not
    exist, and otherwise the rows of the file. *)
Definition run (feedback_log : option (list row)) : outcome :=
  match feedback_log with
  | None => SystemExit 1
  | Some rows =>
      let df := read_csv rows in
      if cleanable df then
        let df := map clean df in
        if (List.length df =? 0)%nat then SystemExit 0
        else if (List.length (incorrect df) =? 0)%nat then SystemExit 0
        else Saved (stage_thresholds (correct df) (incorrect df))
      else Raised AttributeError
  end.

End Stage5SelfLearning.

(** ** Stage 5: [stage5_working.py] *)

Module Stage5Working.

(** [df[df["is_correct"].str.lower() == "yes"]] and its "no" twin; the two
    stage columns are compared as they were read.  The selection raises
    [AttributeError] when the column [is_correct] has no [.str]. *)
Definition correct_predictions (df : list row) : list row :=
  filter (fun r => cell_eqb (str_lower (is_correct r)) "yes") df.

Definition incorrect_predictions (df : list row) : list row :=
  filter (fun r => cell_eqb (str_lower (is_correct r)) "no") df.

Definition stage_similarities (correct_predictions incorrect_predictions : list row)
    (stage : string) : list float :=
  map similarity
    (filter (fun r => cell_eqb (predicted_stage r) stage) correct_predictions)
  ++ map similarity
    (filter (fun r => cell_eqb (corrected_stage r) stage) incorrect_predictions).

(** [mean_sim] and [std_sim] stay [numpy.float64] here, so [round] is
    numpy's. *)
Definition adaptive_thresholds (correct_predictions incorrect_predictions : list row)
    : threshold_table :=
  fold_left
    (fun table stage =>
       let sims := stage_similarities correct_predictions incorrect_predictions stage in
       if (0 <? List.length sims)%nat then
         let mean_sim := Lib.np_mean sims in
         let std_sim := Lib.np_std sims in
         dict_set stage
           {| mean_similarity := Lib.np_round3 mean_sim;
              std_dev := Lib.np_round3 std_sim;
              recommended_min := Lib.np_round3 (F64.sub mean_sim std_sim);
              recommended_max := Lib.np_round3 (F64.add mean_sim std_sim);
              sample_size := List.length sims |}
           table
       else table)
    stages [].

(** The table written when no feedback log exists. *)
Definition sample_thresholds : threshold_table :=
  [ ("foundation",
     mkBand (F64.dec 65 2) (F64.dec 8 2) (F64.dec 57 2) (F64.dec 73 2) 5);
    ("mounting",
     mkBand (F64.dec 75 2) (F64.dec 6 2) (F64.dec 69 2) (F64.dec 81 2) 4);
    ("installation",
     mkBand (F64.dec 88 2) (F64.dec 4 2) (F64.dec 84 2) (F64.dec 92 2) 3) ].

(** [feedback_log] is [None] when the file does not exist, and otherwise
    the rows of the file. *)
Definition run (feedback_log : option (list row)) : outcome :=
  match feedback_log with
  | None => Saved sample_thresholds
  | Some rows =>
      let df := read_csv rows in
      if Pandas.str_accessor (map is_correct df) then
        Saved (adaptive_thresholds (correct_predictions df) (incorrect_predictions df))
      else Raised AttributeError
  end.

End Stage5Working.

(** ** The sample sets of the specification *)

(** A row is marked [verdict] ("yes" or "no") when its [is_correct] cell
    reads so, whatever the case of the letters. *)
Definition marked (r : row) (verdict : string) : bool :=
  cell_eqb (str_lower (is_correct r)) verdict.

(** [scores norm log s]: the scores of the rows of [log] marked "yes" whose
    predicted stage is [s], followed by the scores of the rows marked "no"
    whose corrected stage is [s].  [norm] is what the script does to a stage
    cell before comparing it: [str_lower] in [stage5_self_learning.py],
    nothing in [stage5_working.py]. *)
Definition scores (norm : cell -> cell) (log : list row) (s : string) : list float :=
  map similarity
    (filter (fun r => marked r "yes" && cell_eqb (norm (predicted_stage r)) s) log)
  ++ map similarity
    (filter (fun r => marked r "no" && cell_eqb (norm (corrected_stage r)) s) log).

Definition as_read (c : cell) : cell := c.

(** A row contributes to stage [s] when it is one of the rows [scores]
    selects. *)
Definition contributes (norm : cell -> cell) (r : row) (s : string) : bool :=
  (marked r "yes" && cell_eqb (norm (predicted_stage r)) s)
  || (marked r "no" && cell_eqb (norm (corrected_stage r)) s).


(** The band of a sample list as the scripts store it: every statistic is
    rounded to three decimals, the two bounds being rounded after the
    subtraction and the addition. *)
Definition band_rounded (round3 : float -> float) (sims : list float)
    (b : threshold_band) : Prop :=
  mean_similarity b = round3 (Lib.np_mean sims)
  /\ std_dev b = round3 (Lib.np_std sims)
  /\ recommended_min b = round3 (F64.sub (Lib.np_mean sims) (Lib.np_std sims))
  /\ recommended_max b = round3 (F64.add (Lib.np_mean sims) (Lib.np_std sims))
  /\ sample_size b = List.length sims.

(** The band of a sample list in the words of the specification: the mean,
    the population standard deviation, and the mean minus and plus that
    deviation. *)
Definition band_exact (sims : list float) (b : threshold_band) : Prop :=
  mean_similarity b = Lib.np_mean sims
  /\ std_dev b = Lib.np_std sims
  /\ recommended_min b = F64.sub (mean_similarity b) (std_dev b)
  /\ recommended_max b = F64.add (mean_similarity b) (std_dev b)
  /\ sample_size b = List.length sims.

(** ** Feedback logs used as test inputs *)

Module Logs.

(** One row, predicted Mounting with score 0.75 and marked correct. *)
Definition confirmed_mounting : row :=
  mkRow (Some "mounting") (F64.dec 75 2) (Some "yes") None.

(** A Foundation prediction with score 0.55 corrected to Mounting, then a
    confirmed Mounting prediction with score 0.77. *)
Definition corrected_then_confirmed : list row :=
  [ mkRow (Some "foundation") (F64.dec 55 2) (Some "no") (Some "mounting");
    mkRow (Some "mounting") (F64.dec 77 2) (Some "yes") None ].

(** The same shape with scores 0.56 and 0.7608, whose mean 0.6604 and
    deviation 0.1004 have more than three decimals. *)
Definition four_decimals : list row :=
  [ mkRow (Some "foundation") (F64.dec 56 2) (Some "no") (Some "mounting");
    mkRow (Some "mounting") (F64.dec 7608 4) (Some "yes") None ].


(** A row of the feedback template as Stage 4 writes it, not reviewed
    yet: [is_correct] and [corrected_stage] are empty. *)
Definition unreviewed : row :=
  mkRow (Some "mounting") (F64.dec 72 2) None None.


(** Eight scores whose mean is 0.8675. *)
Definition eight_scores : list float :=
  map (fun n => F64.dec n 2) [92; 61; 73; 85; 94; 99; 93; 97].

End Logs.

(** ** Stage 3: the scripts around [determine_stage] *)

(** The ["similarity"] entry of one record of [stage2_comparison.json]: the
    key can be absent, hold [null], or hold a number. *)
Inductive json_number : Type :=
  | Absent
  | Null
  | Number (x : float).

(** One record of [stage2_comparison.json], with the three keys the Stage 2
    scripts write: ["image"], ["similarity"], and the text ["analysis"],
    [None] when the record has no such key. *)
Record comparison : Type := mkComparison {
  comparison_image : string;
  comparison_similarity : json_number;
  comparison_analysis : option string
}.

(** One row of [stage3_rule_based_summary.csv], in the three columns
    ["image"], ["similarity"] and ["predicted_stage"], which both Stage 3
    scripts compute. *)
Module S3.

Record result : Type := mkResult {
  image : string;
  similarity : float;
  predicted_stage : stage
}.

Definition stage_eqb (a b : stage) : bool :=
  match a, b with
  | foundation, foundation | mounting, mounting | installation, installation => true
  | _, _ => false
  end.

(** The entry of stage [s] in [df["predicted_stage"].value_counts()], [0]
    standing for a stage that is not listed. *)
Definition value_count (s : stage) (df : list result) : nat :=
  List.length (filter (fun r => stage_eqb (predicted_stage r) s) df).

End S3.

(** [stage3_rule_based_analysis.py], from the loading of the Stage 2 results
    to the anomaly count. *)
Module Stage3RuleBasedScript.

(** ["similarity" in df.columns]: [pd.DataFrame(data)] has a column for
    every key that occurs in some record. *)
Definition has_similarity_column (data : list comparison) : bool :=
  existsb (fun c => match comparison_similarity c with
                    | Absent => false
                    | _ => true
                    end) data.

(** The column after the cleaning block: [0.0] everywhere when the column
    had to be created, otherwise the numbers, with NaN where a record has no
    number. *)
Definition similarity_column (data : list comparison) : list float :=
  if has_similarity_column data
  then map (fun c => match comparison_similarity c with
                     | Number x => x
                     | _ => F64.nan
                     end) data
  else map (fun _ => F64.zero) data.

(** [df["predicted_stage"] = df["similarity"].apply(determine_stage)] *)
Definition classify (data : list comparison) : list S3.result :=
  map (fun cx => S3.mkResult (comparison_image (fst cx)) (snd cx)
                   (Stage3RuleBased.determine_stage (snd cx)))
      (combine data (similarity_column data)).

(** [anomalies = df[df["similarity"] < 0.50]] *)
Definition anomalies (df : list S3.result) : list S3.result :=
  filter (fun r => F64.ltb (S3.similarity r) (F64.dec 50 2)) df.

(** [df = pd.DataFrame(data)] keeps every key of the records as a column,
    and [df.to_csv] saves them all.  The column ["analysis"], when some
    record has the key: its text, or [None] (NaN) in the row of a record
    without it. *)
Definition analysis_column (data : list comparison) : option (list cell) :=
  if existsb (fun c => match comparison_analysis c with
                       | Some _ => true
                       | None => false
                       end) data
  then Some (map comparison_analysis data)
  else None.

(** How the script ends: with the frame it saves, in the three columns of
    [S3.result], or with a [SystemExit]. *)
Inductive outcome : Type :=
  | Summary (df : list S3.result)
  | Exit (code : Z).

(** [stage2] is [None] when [stage2_comparison.json] does not exist. *)
Definition run (stage2 : option (list comparison)) : outcome :=
  match stage2 with
  | None => Exit 1
  | Some [] => Exit 0
  | Some data => Summary (classify data)
  end.

(** The columns of the saved file beside the three of [S3.result]. *)
Definition other_columns (data : list comparison) : list (string * list cell) :=
  match analysis_column data with
  | Some column => [("analysis", column)]
  | None => []
  end.

End Stage3RuleBasedScript.

(** [stage3_working.py], from the loading of the Stage 2 results to the
    chart. *)
Module Stage3WorkingScript.

(** [determine_stage(item["similarity"])]: a missing key raises [KeyError],
    and [None > 0.80] raises [TypeError]. *)
Definition stage_of_item (item : comparison) : exn + S3.result :=
  match comparison_similarity item with
  | Absent => inl KeyError
  | Null => inl TypeError
  | Number x =>
      inr (S3.mkResult (comparison_image item) x (Stage3Working.determine_stage x))
  end.

(** The [for item in data] loop; the first exception ends it. *)
Fixpoint process (data : list comparison) : exn + list S3.result :=
  match data with
  | [] => inr []
  | item :: rest =>
      match stage_of_item item with
      | inl e => inl e
      | inr r =>
          match process rest with
          | inl e => inl e
          | inr results => inr (r :: results)
          end
      end
  end.

(** The rows written when the Stage 2 results do not exist. *)
Definition sample_data : list S3.result :=
  [ S3.mkResult "sample1.jpg" (F64.dec 85 2) installation;
    S3.mkResult "sample2.jpg" (F64.dec 72 2) mounting;
    S3.mkResult "sample3.jpg" (F64.dec 65 2) foundation ].

(** How the script ends: the frame it saved and charted, which has the
    three columns of [S3.result] and no other, or an exception together with
    the frame it had saved by then, if any. *)
Inductive outcome : Type :=
  | Summary (df : list S3.result)
  | Raised (e : exn) (saved : option (list S3.result)).

(** The columns of the saved file beside the three of [S3.result]: the
    script copies no other key. *)
Definition other_columns : list (string * list cell) := [].

(** With no record at all the empty frame is saved, and
    [df["predicted_stage"]] then raises [KeyError], as the frame has no
    column. *)
Definition run (stage2 : option (list comparison)) : outcome :=
  match stage2 with
  | None => Summary sample_data
  | Some data =>
      match process data with
      | inl e => Raised e None
      | inr [] => Raised KeyError (Some [])
      | inr results => Summary results
      end
  end.

End Stage3WorkingScript.

(** The records [stage2_working.py] writes to [stage2_comparison.json]. *)
Module Stage2Working.

Definition comparison_results : list comparison :=
  [ mkComparison "site_001.jpg" (Number (F64.dec 85 2))
      (Some "High similarity to reference panels. Installation phase detected.");
    mkComparison "site_002.jpg" (Number (F64.dec 72 2))
      (Some "Moderate similarity. Mounting structures visible.");
    mkComparison "site_003.jpg" (Number (F64.dec 68 2))
      (Some "Lower similarity. Foundation work in progress.") ].

End Stage2Working.

(** [step3_rule_based_logic] of [final_complete_pipeline.py]: the body of
    its loop, on the ["similarity_score"] of one item. *)
Module FinalPipeline.

Record rule_result : Type := mkRule {
  detected_stage : stage;
  panel_count : Z;
  progress_percentage : Z
}.

Definition rule (similarity_score : float) : rule_result :=
  if F64.ltb (F64.dec 80 2) similarity_score then mkRule installation 24 90
  else if F64.ltb (F64.dec 70 2) similarity_score then mkRule mounting 15 75
  else mkRule foundation 3 45.

End FinalPipeline.

(** ** Measures of a threshold table *)

(** The stage names of a table, in the order of its entries. *)
Definition table_keys (t : threshold_table) : list string := map fst t.

(** The [sample_size] fields of a table, in the order of its entries. *)
Definition table_sizes (t : threshold_table) : list nat :=
  map (fun kb => sample_size (snd kb)) t.

(** Whether a sample list is empty. *)
Definition no_scores (l : list float) : bool :=
  match l with [] => true | _ => false end.

(** [int(b)] for a boolean. *)
Definition b2n (b : bool) : nat := if b then 1%nat else 0%nat.

(** A capitalised stage cell, as a reviewer may type it. *)
Definition capitalised_mounting : row :=
  mkRow (Some "Mounting") (F64.dec 75 2) (Some "yes") None.

(** ** Stage 4: the feedback log is written *)

(** [stage4_working.py], the branch taken when the Stage 3 summary exists. *)
Module Stage4Working.

(** One row of [stage3_rule_based_summary.csv] as [pd.read_csv] returns
    it. *)
Record prediction : Type := mkPrediction {
  image : string;
  similarity : float;
  predicted_stage : cell
}.

(** [frame[column] = values] for a frame of [n] rows: pandas raises
    [ValueError] unless [values] has [n] elements. *)
Definition set_column {A : Type} (n : nat) (values : list A) : exn + list A :=
  if (List.length values =? n)%nat then inr values else inl ValueError.

(** [sample_feedback], with the two columns the learner reads:
<<
sample_feedback["is_correct"] = ["yes", "no", "yes"][:len(df)]
sample_feedback["corrected_stage"] = ["", "installation", ""][:len(df)]
>> *)
Definition sample_feedback (df : list prediction) : exn + list row :=
  match set_column (List.length df) (firstn (List.length df) ["yes"; "no"; "yes"]) with
  | inl e => inl e
  | inr is_correct =>
      match set_column (List.length df)
              (firstn (List.length df) [""; "installation"; ""]) with
      | inl e => inl e
      | inr corrected_stage =>
          inr (map (fun pv =>
                      mkRow (predicted_stage (fst pv)) (similarity (fst pv))
                        (Some (fst (snd pv))) (Some (snd (snd pv))))
                   (combine df (combine is_correct corrected_stage)))
      end
  end.

End Stage4Working.

(** [stage4_feedback_system.py], the branch taken when the reviewer types
    "save": the reviewed template is appended to the master log.
<<
if os.path.exists(feedback_log):
    existing = pd.read_csv(feedback_log)
    fb_df = pd.concat([existing, fb_df], ignore_index=True)
fb_df.to_csv(feedback_log, index=False)
>> *)
Module Stage4FeedbackSystem.

(** [existing] is [None] when there is no master log yet. *)
Definition save (existing : option (list row)) (fb_df : list row) : list row :=
  match existing with
  | Some rows => (rows ++ fb_df)%list
  | None => fb_df
  end.

End Stage4FeedbackSystem.

(** ** The driver [run_working_pipeline.py] *)

Module Pipeline.

(** What the driver sees of the machine: which scripts exist, and how the
    child process of a script ends, [None] standing for an exception raised
    by [subprocess.run] itself. *)
Record world : Type := mkWorld {
  exists_script : string -> bool;
  returncode : string -> option Z
}.

(** [run_stage]: [True] exactly when the child process returns 0. *)
Definition run_stage (w : world) (script_name : string) : bool :=
  match returncode w script_name with
  | Some code => Z.eqb code 0
  | None => false
  end.

Definition stages : list (string * Z) :=
  [ ("stage1_working.py", 1); ("stage2_working.py", 2); ("stage3_working.py", 3);
    ("stage4_working.py", 4); ("stage5_working.py", 5); ("stage6_working.py", 6) ].

(** The loop of [main]: one entry [(stage_num, success)] per stage. *)
Definition results (w : world) : list (Z * bool) :=
  map (fun st =>
         if exists_script w (fst st) then (snd st, run_stage w (fst st))
         else (snd st, false))
      stages.

(** [successful = sum(1 for _, _, success in results if success)] *)
Definition successful (w : world) : nat :=
  List.length (filter snd (results w)).

(** [successful == total], the test that selects the closing message. *)
Definition full_pipeline_completed (w : world) : bool :=
  (successful w =? List.length (results w))%nat.

End Pipeline.

(** ** Stage 2: [stage2_compares_site.py] *)

Module Stage2ComparesSite.

Section Run.

(** The CLIP similarity of two images, Python's [sum] on a list of floats
    and the text the vision model answers for an image and its average
    similarity are taken as given. *)
Variable clip_similarity : string -> string -> float.
Variable py_sum : list float -> float.
Variable gpt_summary : string -> float -> string.

(** [avg_sim = sum(sims) / len(sims)] over the reference images; the
    division raises [ZeroDivisionError] when there is none. *)
Definition avg_similarity (reference_images : list string) (mon_img : string)
    : exn + float :=
  let sims := map (fun ref_img => clip_similarity ref_img mon_img) reference_images in
  match sims with
  | [] => inl ZeroDivisionError
  | _ => inr (F64.div (py_sum sims) (F64.of_Z (Z.of_nat (List.length sims))))
  end.

(** Step 1, the loop over all monitoring images. *)
Fixpoint results (reference_images monitoring_images : list string)
    : exn + list (string * float) :=
  match monitoring_images with
  | [] => inr []
  | mon_img :: rest =>
      match avg_similarity reference_images mon_img with
      | inl e => inl e
      | inr avg_sim =>
          match results reference_images rest with
          | inl e => inl e
          | inr rs => inr ((mon_img, avg_sim) :: rs)
          end
      end
  end.

(** Steps 2 and 3: the records written to [stage2_comparison.json], one
    for each of [results[:5]]. *)
Definition run (reference_images monitoring_images : list string)
    : exn + list comparison :=
  match results reference_images monitoring_images with
  | inl e => inl e
  | inr rs =>
      inr (map (fun item =>
                  mkComparison (fst item) (Number (snd item))
                    (Some (gpt_summary (fst item) (snd item))))
             (firstn 5 rs))
  end.

End Run.

End Stage2ComparesSite.

(** ** Computer-vision stage logic

    The stage decision of [analyze_uploaded_image]
    ([image_analysis_pipeline.py]) and of [analyze_image_with_cv]
    ([ai_enhanced_pipeline.py]), on the two ratios measured on the image and
    the number of large contours; of the fields they compute, the stage and
    the panel count. *)
Module CVStage.

Definition stage_and_panels (edge_density blue_ratio : float) (large_contours : nat)
    : stage * Z :=
  if F64.ltb (F64.dec 15 2) edge_density && F64.ltb (F64.dec 2 1) blue_ratio
  then (installation, Z.of_nat large_contours)
  else if F64.ltb (F64.dec 8 2) edge_density && F64.ltb (F64.dec 5 2) blue_ratio
  then (mounting, Z.max 1 (Z.of_nat large_contours / 2))
  else (foundation, 0).

End CVStage.

(** ** Panel counts per day

    [analyze_progress.py] and [generate_report.py] both summarise the
    detection files written by Stage 1. *)
Module PanelCount.

(** One detection of a [*_detections.json] file. *)
Record detection : Type := mkDetection {
  class : string;
  confidence : float;
  bbox : list Z
}.

(** [analyze_progress.py]:
    [sum(1 for d in data if d["class"] == "solar-pv-panel")] *)
Definition analyze_progress_panel_count (data : list detection) : nat :=
  List.length (filter (fun d => String.eqb (class d) "solar-pv-panel") data).

(** [generate_report.py]: [panels = len(detections)] *)
Definition generate_report_panels (detections : list detection) : nat :=
  List.length detections.

(** The detections [stage1_working.py] writes to [day1_detections.json]. *)
Definition stage1_working_detections : list detection :=
  [ mkDetection "solar-panel" (F64.dec 89 2) [100; 100; 200; 200];
    mkDetection "solar-panel" (F64.dec 92 2) [250; 150; 350; 250];
    mkDetection "solar-panel" (F64.dec 87 2) [400; 200; 500; 300] ].

End PanelCount.


(** * Properties *)

(** ** The order on floats *)

Module F64Facts.

Lemma compare_cont_Eq (m n : positive) :
  Pos.compare_cont Eq m n = Pos.compare m n.
Proof. reflexivity. Qed.

(** Case analysis on every integer comparison in sight. *)
Ltac split_compare :=
  repeat match goal with
  | H : context [Pos.compare_cont Eq ?a ?b] |- _ =>
      rewrite (compare_cont_Eq a b) in H
  | |- context [Pos.compare_cont Eq ?a ?b] =>
      rewrite (compare_cont_Eq a b)
  end;
  repeat match goal with
  | H : context [Z.compare ?a ?b] |- _ =>
      destruct (Z.compare_spec a b); simpl in H; try discriminate H
  | H : context [Pos.compare ?a ?b] |- _ =>
      destruct (Pos.compare_spec a b); simpl in H; try discriminate H
  | |- context [Z.compare ?a ?b] =>
      destruct (Z.compare_spec a b); simpl
  | |- context [Pos.compare ?a ?b] =>
      destruct (Pos.compare_spec a b); simpl
  end.

Ltac by_cases3 x y z :=
  unfold F64.ltb, F64.leb, SFltb, SFleb;
  destruct x as [[]|[]| |[] ? ?], y as [[]|[]| |[] ? ?], z as [[]|[]| |[] ? ?];
  simpl; try discriminate; try reflexivity; intros;
  split_compare; try reflexivity; try discriminate; try lia.

Ltac by_cases2 x y :=
  unfold F64.ltb, F64.leb, SFltb, SFleb;
  destruct x as [[]|[]| |[] ? ?], y as [[]|[]| |[] ? ?];
  simpl; try discriminate; try reflexivity; intros;
  split_compare; try reflexivity; try discriminate; try lia.

Lemma ltb_trans (x y z : float) :
  F64.ltb x y = true -> F64.ltb y z = true -> F64.ltb x z = true.
Proof. by_cases3 x y z. Qed.

Lemma ltb_leb_trans (x y z : float) :
  F64.ltb x y = true -> F64.leb y z = true -> F64.ltb x z = true.
Proof. by_cases3 x y z. Qed.

Lemma leb_ltb_trans (x y z : float) :
  F64.leb x y = true -> F64.ltb y z = true -> F64.ltb x z = true.
Proof. by_cases3 x y z. Qed.

Lemma leb_trans (x y z : float) :
  F64.leb x y = true -> F64.leb y z = true -> F64.leb x z = true.
Proof. by_cases3 x y z. Qed.

Lemma ltb_leb (x y : float) : F64.ltb x y = true -> F64.leb x y = true.
Proof. by_cases2 x y. Qed.

Lemma ltb_not_leb (x y : float) : F64.ltb x y = true -> F64.leb y x = false.
Proof. by_cases2 x y. Qed.

Lemma leb_not_ltb (x y : float) : F64.leb x y = true -> F64.ltb y x = false.
Proof. by_cases2 x y. Qed.

(** Two floats that are not NaN are comparable. *)
Lemma not_ltb_leb (x y : float) :
  F64.is_nan x = false -> F64.is_nan y = false ->
  F64.ltb x y = false -> F64.leb y x = true.
Proof. by_cases2 x y. Qed.

Lemma not_leb_ltb (x y : float) :
  F64.is_nan x = false -> F64.is_nan y = false ->
  F64.leb x y = false -> F64.ltb y x = true.
Proof. by_cases2 x y. Qed.

(** A float that takes part in a true comparison is not NaN. *)
Lemma ltb_not_nan (x y : float) :
  F64.ltb x y = true -> F64.is_nan x = false /\ F64.is_nan y = false.
Proof. by_cases2 x y; split; reflexivity. Qed.

Lemma leb_not_nan (x y : float) :
  F64.leb x y = true -> F64.is_nan x = false /\ F64.is_nan y = false.
Proof. by_cases2 x y; split; reflexivity. Qed.

Lemma nan_ltb_l (y : float) : F64.ltb F64.nan y = false.
Proof. reflexivity. Qed.

Lemma nan_ltb_r (x : float) : F64.ltb x F64.nan = false.
Proof. destruct x; reflexivity. Qed.

Lemma nan_leb_l (y : float) : F64.leb F64.nan y = false.
Proof. reflexivity. Qed.

Lemma nan_leb_r (x : float) : F64.leb x F64.nan = false.
Proof. destruct x; reflexivity. Qed.

End F64Facts.

(** ** The pairwise sum *)

(** The recursion of [pairwise_sum] ends before [depth] is used up: any two
    depths that are at least the length of the list give the same sum. *)
Lemma pairwise_sum_depth (d d' : nat) (l : list float) :
  (List.length l <= d)%nat -> (List.length l <= d')%nat ->
  Lib.pairwise_sum d l = Lib.pairwise_sum d' l.
Proof.
  revert d' l. induction d as [|d IH]; intros d' l Hd Hd'.
  - destruct l; [| cbn in Hd; lia]. destruct d'; reflexivity.
  - destruct d' as [|d'].
    + destruct l; [| cbn in Hd'; lia]. reflexivity.
    + cbn [Lib.pairwise_sum]. cbv zeta.
      destruct (Nat.ltb_spec (List.length l) 8); [reflexivity |].
      destruct (Nat.leb_spec (List.length l) 128); [reflexivity |].
      assert (H8 : ((List.length l / 2) mod 8 < 8)%nat)
        by (apply Nat.mod_upper_bound; lia).
      assert (H64 : (64 <= List.length l / 2)%nat)
        by (apply Nat.div_le_lower_bound; lia).
      assert (Hlt : (List.length l / 2 < List.length l)%nat)
        by (apply Nat.div_lt; lia).
      f_equal; apply IH; rewrite ?length_firstn, ?length_skipn; lia.
Qed.

(** The zero from which the short loop starts does not show in the sum. *)
Lemma np_sum_start (l : list float) :
  F64.add F64.zero (Lib.sum_loop (S754_zero true) l)
  = F64.add F64.zero (Lib.sum_loop F64.zero l).
Proof.
  unfold Lib.sum_loop.
  assert (H : forall (b : bool),
             F64.add F64.zero (fold_left F64.add l (S754_zero b))
             = F64.add F64.zero (fold_left F64.add l F64.zero)).
  { induction l as [|a l IH]; intros b.
    - destruct b; reflexivity.
    - cbn [fold_left].
      destruct a as [[]|s| |s m e]; destruct b;
        try reflexivity; apply (IH true). }
  apply H.
Qed.

(** Up to seven values are added in index order. *)
Lemma np_sum_short (l : list float) :
  (List.length l < 8)%nat ->
  Lib.np_sum l = F64.add F64.zero (fold_left F64.add l F64.zero).
Proof.
  intros H. unfold Lib.np_sum.
  destruct (List.length l) as [|d] eqn:E.
  - destruct l; [reflexivity | discriminate E].
  - cbn [Lib.pairwise_sum]. cbv zeta. rewrite E.
    destruct (Nat.ltb_spec (S d) 8); [reflexivity | lia].
Qed.

(** ** The two fixed cut-point classifiers *)

Lemma c60_lt_c70 : F64.ltb (F64.dec 60 2) (F64.dec 70 2) = true.
Proof. vm_compute. reflexivity. Qed.

Lemma c70_lt_c80 : F64.ltb (F64.dec 70 2) (F64.dec 80 2) = true.
Proof. vm_compute. reflexivity. Qed.

Lemma c60_lt_c80 : F64.ltb (F64.dec 60 2) (F64.dec 80 2) = true.
Proof. vm_compute. reflexivity. Qed.

Lemma cut_points_not_nan :
  F64.is_nan (F64.dec 60 2) = false /\ F64.is_nan (F64.dec 70 2) = false
  /\ F64.is_nan (F64.dec 80 2) = false.
Proof. vm_compute. auto. Qed.

(** The decision table of [stage3_rule_based_analysis.determine_stage]. *)
Lemma rule_based_installation (x : float) :
  F64.ltb (F64.dec 80 2) x = true ->
  Stage3RuleBased.determine_stage x = installation.
Proof.
  intros H. unfold Stage3RuleBased.determine_stage. rewrite H. reflexivity.
Qed.

Lemma rule_based_mounting (x : float) :
  F64.leb (F64.dec 60 2) x = true -> F64.leb x (F64.dec 80 2) = true ->
  Stage3RuleBased.determine_stage x = mounting.
Proof.
  intros Hlo Hhi. unfold Stage3RuleBased.determine_stage.
  rewrite (F64Facts.leb_not_ltb _ _ Hhi), Hlo, Hhi. reflexivity.
Qed.

Lemma rule_based_foundation (x : float) :
  F64.ltb x (F64.dec 60 2) = true ->
  Stage3RuleBased.determine_stage x = foundation.
Proof.
  intros H. unfold Stage3RuleBased.determine_stage.
  assert (H80 : F64.ltb x (F64.dec 80 2) = true)
    by (eapply F64Facts.ltb_trans; [exact H | exact c60_lt_c80]).
  rewrite (F64Facts.leb_not_ltb _ _ (F64Facts.ltb_leb _ _ H80)).
  rewrite (F64Facts.ltb_not_leb _ _ H). reflexivity.
Qed.

(** The decision table of [stage3_working.determine_stage]. *)
Lemma working_installation (x : float) :
  F64.ltb (F64.dec 80 2) x = true ->
  Stage3Working.determine_stage x = installation.
Proof.
  intros H. unfold Stage3Working.determine_stage. rewrite H. reflexivity.
Qed.

Lemma working_mounting (x : float) :
  F64.leb (F64.dec 70 2) x = true -> F64.leb x (F64.dec 80 2) = true ->
  Stage3Working.determine_stage x = mounting.
Proof.
  intros Hlo Hhi. unfold Stage3Working.determine_stage.
  rewrite (F64Facts.leb_not_ltb _ _ Hhi), Hlo. reflexivity.
Qed.

Lemma working_foundation (x : float) :
  F64.ltb x (F64.dec 70 2) = true ->
  Stage3Working.determine_stage x = foundation.
Proof.
  intros H. unfold Stage3Working.determine_stage.
  assert (H80 : F64.ltb x (F64.dec 80 2) = true)
    by (eapply F64Facts.ltb_trans; [exact H | exact c70_lt_c80]).
  rewrite (F64Facts.leb_not_ltb _ _ (F64Facts.ltb_leb _ _ H80)).
  rewrite (F64Facts.ltb_not_leb _ _ H). reflexivity.
Qed.

(** A finite score lies in exactly one of the three ranges of the rule-based
    table; here: in at least one. *)
Lemma finite_trichotomy (x : float) :
  F64.is_nan x = false ->
  F64.lt (F64.dec 80 2) x
  \/ (F64.le (F64.dec 60 2) x /\ F64.le x (F64.dec 80 2))
  \/ F64.lt x (F64.dec 60 2).
Proof.
  intros Hx. unfold F64.lt, F64.le.
  destruct cut_points_not_nan as (N60 & _ & N80).
  destruct (F64.ltb (F64.dec 80 2) x) eqn:H80; [left; reflexivity | right].
  apply (F64Facts.not_ltb_leb _ _ N80 Hx) in H80.
  destruct (F64.leb (F64.dec 60 2) x) eqn:H60; [left; split; auto | right].
  apply (F64Facts.not_leb_ltb _ _ N60 Hx) in H60. exact H60.
Qed.

Lemma finite_not_nan (x : float) : F64.is_finite x = true -> F64.is_nan x = false.
Proof. destruct x; simpl; congruence. Qed.

Lemma finite_trichotomy_working (x : float) :
  F64.is_nan x = false ->
  F64.lt (F64.dec 80 2) x
  \/ (F64.le (F64.dec 70 2) x /\ F64.le x (F64.dec 80 2))
  \/ F64.lt x (F64.dec 70 2).
Proof.
  intros Hx. unfold F64.lt, F64.le.
  destruct cut_points_not_nan as (_ & N70 & N80).
  destruct (F64.ltb (F64.dec 80 2) x) eqn:H80; [left; reflexivity | right].
  apply (F64Facts.not_ltb_leb _ _ N80 Hx) in H80.
  destruct (F64.leb (F64.dec 70 2) x) eqn:H70; [left; split; auto | right].
  apply (F64Facts.not_leb_ltb _ _ N70 Hx) in H70. exact H70.
Qed.

(** C1, as the code has it.  For every finite score [determine_stage] of
    [stage3_rule_based_analysis.py] follows the table of the claim: a score
    strictly above 0.80 is Installation, a score between 0.60 and 0.80
    inclusive is Mounting, a score below 0.60 is Foundation, and one of the
    three cases applies.  [determine_stage] of [stage3_working.py] follows
    the same table with the lower bound of Mounting at 0.70: a score between
    0.70 and 0.80 inclusive is Mounting and a score below 0.70 is
    Foundation.  Both classify 0.85, 0.70 and 0.40 as Installation, Mounting
    and Foundation. *)
Theorem determine_stage_cut_points :
  (forall x : float, F64.is_finite x = true ->
     (F64.lt (F64.dec 80 2) x ->
        Stage3RuleBased.determine_stage x = installation)
     /\ (F64.le (F64.dec 60 2) x -> F64.le x (F64.dec 80 2) ->
        Stage3RuleBased.determine_stage x = mounting)
     /\ (F64.lt x (F64.dec 60 2) ->
        Stage3RuleBased.determine_stage x = foundation)
     /\ (F64.lt (F64.dec 80 2) x
         \/ (F64.le (F64.dec 60 2) x /\ F64.le x (F64.dec 80 2))
         \/ F64.lt x (F64.dec 60 2)))
  /\ (forall x : float, F64.is_finite x = true ->
     (F64.lt (F64.dec 80 2) x ->
        Stage3Working.determine_stage x = installation)
     /\ (F64.le (F64.dec 70 2) x -> F64.le x (F64.dec 80 2) ->
        Stage3Working.determine_stage x = mounting)
     /\ (F64.lt x (F64.dec 70 2) ->
        Stage3Working.determine_stage x = foundation)
     /\ (F64.lt (F64.dec 80 2) x
         \/ (F64.le (F64.dec 70 2) x /\ F64.le x (F64.dec 80 2))
         \/ F64.lt x (F64.dec 70 2)))
  /\ Stage3RuleBased.determine_stage (F64.dec 85 2) = installation
  /\ Stage3RuleBased.determine_stage (F64.dec 70 2) = mounting
  /\ Stage3RuleBased.determine_stage (F64.dec 40 2) = foundation
  /\ Stage3Working.determine_stage (F64.dec 85 2) = installation
  /\ Stage3Working.determine_stage (F64.dec 70 2) = mounting
  /\ Stage3Working.determine_stage (F64.dec 40 2) = foundation.
Proof.
  split; [| split;
    [| split; [| split; [| split; [| split; [| split]]]]; vm_compute; reflexivity]].
  - intros x Hfin. split; [| split; [| split]].
    + apply rule_based_installation.
    + apply rule_based_mounting.
    + apply rule_based_foundation.
    + apply finite_trichotomy, finite_not_nan, Hfin.
  - intros x Hfin. split; [| split; [| split]].
    + apply working_installation.
    + apply working_mounting.
    + apply working_foundation.
    + apply finite_trichotomy_working, finite_not_nan, Hfin.
Qed.

Lemma determine_stage_cut_points_witness :
  Stage3RuleBased.determine_stage (F64.dec 93 2) = installation
  /\ Stage3RuleBased.determine_stage (F64.dec 65 2) = mounting
  /\ Stage3RuleBased.determine_stage (F64.dec 12 2) = foundation
  /\ Stage3Working.determine_stage (F64.dec 75 2) = mounting
  /\ Stage3Working.determine_stage (F64.dec 65 2) = foundation.
Proof.
  split; [| split; [| split; [| split]]].
  - apply (proj1 determine_stage_cut_points (F64.dec 93 2)); reflexivity.
  - apply (proj1 determine_stage_cut_points (F64.dec 65 2)); reflexivity.
  - apply (proj1 determine_stage_cut_points (F64.dec 12 2)); reflexivity.
  - apply (proj1 (proj2 determine_stage_cut_points) (F64.dec 75 2)); reflexivity.
  - apply (proj1 (proj2 determine_stage_cut_points) (F64.dec 65 2)); reflexivity.
Defined.

(** C1, as the specification states it, fails for [stage3_working.py]:
    the finite score 0.65 lies between 0.60 and 0.80, and its
    [determine_stage] answers Foundation, not Mounting. *)
Lemma determine_stage_cut_points_working :
  F64.is_finite (F64.dec 65 2) = true
  /\ F64.le (F64.dec 60 2) (F64.dec 65 2)
  /\ F64.le (F64.dec 65 2) (F64.dec 80 2)
  /\ Stage3Working.determine_stage (F64.dec 65 2) = foundation
  /\ Stage3Working.determine_stage (F64.dec 65 2) <> mounting.
Proof.
  split; [| split; [| split; [| split]]]; try (vm_compute; reflexivity).
  vm_compute. discriminate.
Qed.

(** What the classifiers do outside the finite floats. *)
Lemma rule_based_not_finite (x : float) :
  F64.is_finite x = false ->
  Stage3RuleBased.determine_stage x
  = if F64.eqb x F64.pos_inf then installation else foundation.
Proof. destruct x as [s|[]| |s m e]; simpl; intros H; try discriminate H; reflexivity. Qed.

Lemma working_not_finite (x : float) :
  F64.is_finite x = false ->
  Stage3Working.determine_stage x
  = if F64.eqb x F64.pos_inf then installation else foundation.
Proof. destruct x as [s|[]| |s m e]; simpl; intros H; try discriminate H; reflexivity. Qed.

(** C5, as the code has it.  Neither classifier validates its argument
    and neither can fail: a score that is not finite is classified like any
    other, positive infinity as Installation, NaN and negative infinity as
    Foundation. *)
Theorem determine_stage_not_finite (x : float) :
  F64.is_finite x = false ->
  Stage3RuleBased.determine_stage x
    = (if F64.eqb x F64.pos_inf then installation else foundation)
  /\ Stage3Working.determine_stage x
    = (if F64.eqb x F64.pos_inf then installation else foundation).
Proof.
  intros H. split.
  - apply rule_based_not_finite, H.
  - apply working_not_finite, H.
Qed.

Lemma determine_stage_not_finite_witness :
  Stage3RuleBased.determine_stage F64.nan = foundation
  /\ Stage3Working.determine_stage F64.nan = foundation.
Proof. apply (determine_stage_not_finite F64.nan). reflexivity. Defined.

(** C5, as the specification states it, fails: applied to NaN both
    classifiers return a label, namely Foundation. *)
Lemma determine_stage_nan_returns :
  Stage3RuleBased.determine_stage F64.nan = foundation
  /\ Stage3Working.determine_stage F64.nan = foundation.
Proof. split; reflexivity. Qed.

(** Monotonicity of each variant. *)
Lemma rule_based_monotone (a b : float) :
  F64.ltb a b = true ->
  maturity (Stage3RuleBased.determine_stage a)
  <= maturity (Stage3RuleBased.determine_stage b).
Proof.
  intros Hab.
  destruct (F64Facts.ltb_not_nan _ _ Hab) as [Na Nb].
  destruct cut_points_not_nan as (N60 & _ & N80).
  destruct (F64.ltb (F64.dec 80 2) b) eqn:Hb80.
  - rewrite (rule_based_installation b Hb80).
    destruct (Stage3RuleBased.determine_stage a); simpl; lia.
  - assert (Hb : F64.leb b (F64.dec 80 2) = true)
      by (apply F64Facts.not_ltb_leb; assumption).
    assert (Ha : F64.ltb a (F64.dec 80 2) = true)
      by (eapply F64Facts.ltb_leb_trans; eassumption).
    destruct (F64.leb (F64.dec 60 2) b) eqn:Hb60.
    + rewrite (rule_based_mounting b Hb60 Hb).
      unfold Stage3RuleBased.determine_stage.
      rewrite (F64Facts.leb_not_ltb _ _ (F64Facts.ltb_leb _ _ Ha)).
      destruct (_ && _); simpl; lia.
    + assert (Hb' : F64.ltb b (F64.dec 60 2) = true)
        by (apply F64Facts.not_leb_ltb; assumption).
      rewrite (rule_based_foundation b Hb').
      rewrite (rule_based_foundation a (F64Facts.ltb_trans _ _ _ Hab Hb')).
      simpl; lia.
Qed.

Lemma working_monotone (a b : float) :
  F64.ltb a b = true ->
  maturity (Stage3Working.determine_stage a)
  <= maturity (Stage3Working.determine_stage b).
Proof.
  intros Hab.
  destruct (F64Facts.ltb_not_nan _ _ Hab) as [Na Nb].
  destruct cut_points_not_nan as (_ & N70 & N80).
  destruct (F64.ltb (F64.dec 80 2) b) eqn:Hb80.
  - rewrite (working_installation b Hb80).
    destruct (Stage3Working.determine_stage a); simpl; lia.
  - assert (Hb : F64.leb b (F64.dec 80 2) = true)
      by (apply F64Facts.not_ltb_leb; assumption).
    assert (Ha : F64.ltb a (F64.dec 80 2) = true)
      by (eapply F64Facts.ltb_leb_trans; eassumption).
    destruct (F64.leb (F64.dec 70 2) b) eqn:Hb70.
    + rewrite (working_mounting b Hb70 Hb).
      unfold Stage3Working.determine_stage.
      rewrite (F64Facts.leb_not_ltb _ _ (F64Facts.ltb_leb _ _ Ha)).
      destruct (F64.leb _ a); simpl; lia.
    + assert (Hb' : F64.ltb b (F64.dec 70 2) = true)
        by (apply F64Facts.not_leb_ltb; assumption).
      rewrite (working_foundation b Hb').
      rewrite (working_foundation a (F64Facts.ltb_trans _ _ _ Hab Hb')).
      simpl; lia.
Qed.

(** C6. With the cut-points fixed, a strictly higher score is never
    classified into a strictly less mature stage than a lower score: if
    [score_a < score_b] then the stage of [score_a] is at most the stage of
    [score_b] in the order Foundation < Mounting < Installation.  This holds
    for both classifiers. *)
Theorem determine_stage_monotone (score_a score_b : float) :
  F64.lt score_a score_b ->
  maturity (Stage3RuleBased.determine_stage score_a)
    <= maturity (Stage3RuleBased.determine_stage score_b)
  /\ maturity (Stage3Working.determine_stage score_a)
    <= maturity (Stage3Working.determine_stage score_b).
Proof.
  intros H. split.
  - apply rule_based_monotone, H.
  - apply working_monotone, H.
Qed.

Lemma determine_stage_monotone_witness :
  F64.lt (F64.dec 65 2) (F64.dec 81 2)
  /\ maturity (Stage3RuleBased.determine_stage (F64.dec 65 2))
     <= maturity (Stage3RuleBased.determine_stage (F64.dec 81 2))
  /\ maturity (Stage3Working.determine_stage (F64.dec 65 2))
     <= maturity (Stage3Working.determine_stage (F64.dec 81 2)).
Proof.
  split.
  - reflexivity.
  - apply (determine_stage_monotone (F64.dec 65 2) (F64.dec 81 2)). reflexivity.
Defined.

(** C9. The two classifiers differ exactly on the scores from 0.60
    inclusive to 0.70 exclusive: there the variant whose Mounting range
    starts at 0.60 answers Mounting and the variant whose Mounting range
    starts at 0.70 answers Foundation; such a score exists (0.65), and on
    every other float the two variants agree. *)
Theorem determine_stage_variants_differ :
  (forall x : float,
     F64.le (F64.dec 60 2) x -> F64.lt x (F64.dec 70 2) ->
     Stage3RuleBased.determine_stage x = mounting
     /\ Stage3Working.determine_stage x = foundation)
  /\ (exists x : float,
        F64.le (F64.dec 60 2) x /\ F64.lt x (F64.dec 70 2)
        /\ Stage3RuleBased.determine_stage x <> Stage3Working.determine_stage x)
  /\ (forall x : float,
        ~ (F64.le (F64.dec 60 2) x /\ F64.lt x (F64.dec 70 2)) ->
        Stage3RuleBased.determine_stage x = Stage3Working.determine_stage x).
Proof.
  unfold F64.le, F64.lt.
  destruct cut_points_not_nan as (N60 & N70 & N80).
  split; [| split].
  - intros x Hlo Hhi. split.
    + apply rule_based_mounting; [exact Hlo |].
      apply F64Facts.ltb_leb.
      eapply F64Facts.ltb_trans; [exact Hhi | exact c70_lt_c80].
    + apply working_foundation, Hhi.
  - exists (F64.dec 65 2). split; [| split]; try reflexivity.
    vm_compute. discriminate.
  - intros x Hout.
    destruct (F64.ltb (F64.dec 80 2) x) eqn:H80.
    + rewrite rule_based_installation, working_installation by exact H80.
      reflexivity.
    + destruct (F64.leb (F64.dec 70 2) x) eqn:H70.
      * destruct (F64Facts.leb_not_nan _ _ H70) as [_ Nx].
        assert (Hhi : F64.leb x (F64.dec 80 2) = true)
          by (apply F64Facts.not_ltb_leb; assumption).
        rewrite (working_mounting x H70 Hhi).
        apply rule_based_mounting; [| exact Hhi].
        apply F64Facts.ltb_leb.
        eapply F64Facts.ltb_leb_trans; [exact c60_lt_c70 | exact H70].
      * unfold Stage3RuleBased.determine_stage, Stage3Working.determine_stage.
        rewrite H80, H70.
        destruct (F64.leb (F64.dec 60 2) x) eqn:H60; [| reflexivity].
        destruct (F64Facts.leb_not_nan _ _ H60) as [_ Nx].
        exfalso. apply Hout. split; [reflexivity |].
        apply F64Facts.not_leb_ltb; assumption.
Qed.

Lemma determine_stage_variants_differ_witness :
  Stage3RuleBased.determine_stage (F64.dec 65 2) = mounting
  /\ Stage3Working.determine_stage (F64.dec 65 2) = foundation.
Proof.
  apply (proj1 determine_stage_variants_differ (F64.dec 65 2)); reflexivity.
Defined.

(** C10. Both classifiers are total and never signal an error: every
    float, the special values included, is mapped to one of the three
    labels; NaN and negative infinity fail both comparisons and come out as
    Foundation, positive infinity comes out as Installation. *)
Theorem determine_stage_total :
  (forall x : float,
     exists s : stage,
       Stage3RuleBased.determine_stage x = s
       /\ (s = foundation \/ s = mounting \/ s = installation))
  /\ (forall x : float,
     exists s : stage,
       Stage3Working.determine_stage x = s
       /\ (s = foundation \/ s = mounting \/ s = installation))
  /\ Stage3RuleBased.determine_stage F64.nan = foundation
  /\ Stage3RuleBased.determine_stage F64.neg_inf = foundation
  /\ Stage3RuleBased.determine_stage F64.pos_inf = installation
  /\ Stage3Working.determine_stage F64.nan = foundation
  /\ Stage3Working.determine_stage F64.neg_inf = foundation
  /\ Stage3Working.determine_stage F64.pos_inf = installation.
Proof.
  split; [| split].
  - intros x. exists (Stage3RuleBased.determine_stage x). split; [reflexivity |].
    destruct (Stage3RuleBased.determine_stage x); auto.
  - intros x. exists (Stage3Working.determine_stage x). split; [reflexivity |].
    destruct (Stage3Working.determine_stage x); auto.
  - vm_compute. auto 10.
Qed.

(** ** Dictionaries *)

Lemma dict_get_set_eq {V : Type} (k : string) (v : V) (d : dict V) :
  dict_get k (dict_set k v d) = Some v.
Proof.
  induction d as [|[k' v'] d IH]; simpl.
  - rewrite String.eqb_refl. reflexivity.
  - destruct (String.eqb k' k) eqn:E; simpl.
    + rewrite String.eqb_refl. reflexivity.
    + rewrite E. exact IH.
Qed.

Lemma dict_get_set_neq {V : Type} (k k' : string) (v : V) (d : dict V) :
  k' <> k -> dict_get k (dict_set k' v d) = dict_get k d.
Proof.
  intros Hk. apply String.eqb_neq in Hk.
  induction d as [|[k0 v0] d IH]; simpl.
  - rewrite Hk. reflexivity.
  - destruct (String.eqb k0 k') eqn:E; simpl.
    + apply String.eqb_eq in E. subst k0. rewrite Hk. reflexivity.
    + destruct (String.eqb k0 k); [reflexivity | exact IH].
Qed.

(** ** The threshold loop *)

Section LoopFacts.

Variable mean std : list float -> float.
Variable round3 : float -> float.

(** The table maps a stage to the band of its scores, and to nothing when it
    has no score. *)
Lemma threshold_loop_get (correct incorrect : list row) (s : stage) :
  dict_get (stage_name s) (threshold_loop mean std round3 correct incorrect)
  = match sims_of correct incorrect (stage_name s) with
    | [] => None
    | sims => Some (band_of mean std round3 sims)
    end.
Proof.
  unfold threshold_loop, stages, loop_step. cbn [fold_left].
  destruct s; cbn [stage_name];
    generalize (sims_of correct incorrect "foundation");
    generalize (sims_of correct incorrect "mounting");
    generalize (sims_of correct incorrect "installation");
    intros l3 l2 l1;
    destruct l1 as [|? ?], l2 as [|? ?], l3 as [|? ?]; reflexivity.
Qed.

(** Only stage names are keys of the table. *)
Lemma threshold_loop_keys (correct incorrect : list row) (k : string) :
  (forall s : stage, k <> stage_name s) ->
  dict_get k (threshold_loop mean std round3 correct incorrect) = None.
Proof.
  intros Hk.
  assert (H1 : "foundation" <> k)
    by (intros E; apply (Hk foundation); symmetry; exact E).
  assert (H2 : "mounting" <> k)
    by (intros E; apply (Hk mounting); symmetry; exact E).
  assert (H3 : "installation" <> k)
    by (intros E; apply (Hk installation); symmetry; exact E).
  unfold threshold_loop, stages, loop_step. cbn [fold_left].
  repeat match goal with
         | |- context [if ?c then _ else _] => destruct c
         end;
    rewrite ?dict_get_set_neq by assumption; reflexivity.
Qed.

(** The table is the list of the bands of the stages that have scores, in
    the order of [stages]. *)
Lemma threshold_loop_entries (c i : list row) :
  threshold_loop mean std round3 c i
  = map (fun k => (k, band_of mean std round3 (sims_of c i k)))
      (filter (fun k => negb (no_scores (sims_of c i k))) stages).
Proof.
  unfold threshold_loop, stages, loop_step. cbn [fold_left filter].
  destruct (sims_of c i "foundation") as [|? ?] eqn:E1,
    (sims_of c i "mounting") as [|? ?] eqn:E2,
    (sims_of c i "installation") as [|? ?] eqn:E3;
    cbn [negb no_scores List.length Nat.ltb Nat.leb map];
    rewrite ?E1, ?E2, ?E3; reflexivity.
Qed.

End LoopFacts.

Lemma map_filter_stages {A : Type} (f g : string -> A) (p q : string -> bool) :
  (forall s : stage, f (stage_name s) = g (stage_name s)) ->
  (forall s : stage, p (stage_name s) = q (stage_name s)) ->
  map f (filter p stages) = map g (filter q stages).
Proof.
  intros Hf Hp.
  pose proof (Hf foundation) as F1. pose proof (Hf mounting) as F2.
  pose proof (Hf installation) as F3. pose proof (Hp foundation) as P1.
  pose proof (Hp mounting) as P2. pose proof (Hp installation) as P3.
  cbn [stage_name] in *. unfold stages. cbn [filter].
  rewrite P1, P2, P3.
  destruct (q "foundation"), (q "mounting"), (q "installation");
    cbn [map]; rewrite ?F1, ?F2, ?F3; reflexivity.
Qed.

(** Both scripts run that loop. *)
Lemma stage_thresholds_loop (correct incorrect : list row) :
  Stage5SelfLearning.stage_thresholds correct incorrect
  = threshold_loop Lib.np_mean Lib.np_std Lib.py_round3 correct incorrect.
Proof. reflexivity. Qed.

Lemma adaptive_thresholds_loop (correct incorrect : list row) :
  Stage5Working.adaptive_thresholds correct incorrect
  = threshold_loop Lib.np_mean Lib.np_std Lib.np_round3 correct incorrect.
Proof. reflexivity. Qed.

(** ** Fields that are text *)





(** The lower case of an NA spelling is the lower case of one of them. *)
Lemma is_na_lower (s : string) :
  Pandas.is_na s = true ->
  existsb (String.eqb (lower s)) (map lower Pandas.na_values) = true.
Proof.
  unfold Pandas.is_na. intros H. apply existsb_exists in H.
  destruct H as (x & Hin & E). apply String.eqb_eq in E. subst x.
  apply existsb_exists. exists (lower s). split.
  - apply in_map, Hin.
  - apply String.eqb_refl.
Qed.

(** Reading a field does not change whether its lower case is [lit], for a
    literal that is not the lower case of an NA spelling. *)
Lemma read_cell_lower (c : cell) (lit : string) :
  existsb (String.eqb lit) (map lower Pandas.na_values) = false ->
  cell_eqb (str_lower (Pandas.read_cell c)) lit = cell_eqb (str_lower c) lit.
Proof.
  intros Hlit. destruct c as [s|]; [| reflexivity].
  cbn [Pandas.read_cell]. destruct (Pandas.is_na s) eqn:E; [| reflexivity].
  cbn [str_lower option_map cell_eqb]. symmetry. apply String.eqb_neq.
  intros El. apply is_na_lower in E. rewrite El, Hlit in E. discriminate E.
Qed.

(** Nor whether it is [lit], for a literal that is not an NA spelling. *)
Lemma read_cell_as_read (c : cell) (lit : string) :
  Pandas.is_na lit = false ->
  cell_eqb (Pandas.read_cell c) lit = cell_eqb c lit.
Proof.
  intros Hlit. destruct c as [s|]; [| reflexivity].
  cbn [Pandas.read_cell]. destruct (Pandas.is_na s) eqn:E; [| reflexivity].
  cbn [cell_eqb]. symmetry. apply String.eqb_neq.
  intros El. rewrite El, Hlit in E. discriminate E.
Qed.

Lemma stage_name_not_na (s : stage) :
  existsb (String.eqb (stage_name s)) (map lower Pandas.na_values) = false
  /\ Pandas.is_na (stage_name s) = false.
Proof. destruct s; split; vm_compute; reflexivity. Qed.

Lemma marked_read (r : row) (verdict : string) :
  verdict = "yes" \/ verdict = "no" ->
  marked (read_row r) verdict = marked r verdict.
Proof.
  intros Hv. unfold marked. cbn [read_row is_correct].
  apply read_cell_lower. destruct Hv as [-> | ->]; vm_compute; reflexivity.
Qed.

(** ** Columns of strings *)

Lemma forallb_perm {A : Type} (p : A -> bool) (l l' : list A) :
  Permutation l l' -> forallb p l = forallb p l'.
Proof.
  induction 1 as [|a l l' _ IH|a b l|l l' l'' _ IH1 _ IH2]; cbn [forallb].
  - reflexivity.
  - rewrite IH. reflexivity.
  - destruct (p a), (p b); reflexivity.
  - congruence.
Qed.

Lemma existsb_perm {A : Type} (p : A -> bool) (l l' : list A) :
  Permutation l l' -> existsb p l = existsb p l'.
Proof.
  induction 1 as [|a l l' _ IH|a b l|l l' l'' _ IH1 _ IH2]; cbn [existsb].
  - reflexivity.
  - rewrite IH. reflexivity.
  - destruct (p a), (p b); reflexivity.
  - congruence.
Qed.

Lemma existsb_map {A B : Type} (f : A -> B) (p : B -> bool) (l : list A) :
  existsb p (map f l) = existsb (fun a => p (f a)) l.
Proof.
  induction l as [|a l IH]; [reflexivity |]. cbn [map existsb]. rewrite IH.
  reflexivity.
Qed.

Lemma type_of_perm (column column' : list cell) :
  Permutation column column' -> Pandas.type_of column = Pandas.type_of column'.
Proof.
  intros H. unfold Pandas.type_of, Pandas.all_values.
  rewrite (forallb_perm _ column column' H).
  rewrite (forallb_perm (fun c => match c with
                                  | Some s => Pandas.reads_as_boolean s
                                  | None => true
                                  end) column column' H).
  reflexivity.
Qed.

Lemma str_accessor_perm (column column' : list cell) :
  Permutation column column' ->
  Pandas.str_accessor column = Pandas.str_accessor column'.
Proof.
  intros H. unfold Pandas.str_accessor. rewrite (type_of_perm _ _ H).
  destruct column as [|c column], column' as [|c' column']; try reflexivity.
  - apply Permutation_nil in H. discriminate H.
  - apply Permutation_sym, Permutation_nil in H. discriminate H.
Qed.

Lemma filled_str_accessor_perm (column column' : list cell) :
  Permutation column column' ->
  Pandas.filled_str_accessor column = Pandas.filled_str_accessor column'.
Proof.
  intros H. unfold Pandas.filled_str_accessor.
  rewrite (str_accessor_perm _ _ H), (existsb_perm _ _ _ H). reflexivity.
Qed.

(** When [.str] exists. *)
Lemma str_accessor_strings (column : list cell) :
  Pandas.str_accessor column = true
  <-> column = []
      \/ (Pandas.all_values Pandas.reads_as_number column = false
          /\ Pandas.all_values Pandas.reads_as_boolean column = false).
Proof.
  unfold Pandas.str_accessor, Pandas.type_of.
  destruct column as [|c column]; [split; auto |].
  destruct (Pandas.all_values Pandas.reads_as_number (c :: column)),
    (Pandas.all_values Pandas.reads_as_boolean (c :: column));
    split; intros H; try discriminate H; try reflexivity;
    try (destruct H as [H | [H1 H2]]; discriminate);
    right; split; reflexivity.
Qed.


Lemma all_values_app (p : string -> bool) (column before after : list cell) :
  Pandas.all_values p column = false ->
  Pandas.all_values p (before ++ column ++ after) = false.
Proof.
  unfold Pandas.all_values, cell. intros H. rewrite !forallb_app, H.
  rewrite andb_false_l. apply andb_false_r.
Qed.

(** A column of strings with rows stays one when rows are added. *)
Lemma str_accessor_app (column before after : list cell) :
  column <> [] -> Pandas.str_accessor column = true ->
  Pandas.str_accessor (before ++ column ++ after) = true.
Proof.
  intros Hne H. apply str_accessor_strings in H.
  destruct H as [H | [H1 H2]]; [contradiction Hne |].
  apply str_accessor_strings. right. split; apply all_values_app; assumption.
Qed.

Lemma filled_str_accessor_app (column before after : list cell) :
  column <> [] -> Pandas.filled_str_accessor column = true ->
  Pandas.filled_str_accessor (before ++ column ++ after) = true.
Proof.
  intros Hne H. unfold Pandas.filled_str_accessor in *.
  apply orb_true_iff in H. apply orb_true_iff. destruct H as [H|H].
  - left. apply str_accessor_app; assumption.
  - right. rewrite !existsb_app, H. apply orb_true_iff. right. reflexivity.
Qed.


(** ** From the frames of the scripts to the rows of the log *)

Lemma clean_marked (r : row) (verdict : string) :
  verdict <> "" ->
  cell_eqb (is_correct (Stage5SelfLearning.clean r)) verdict = marked r verdict.
Proof.
  intros Hv. unfold marked. simpl. destruct (is_correct r) as [c|]; simpl.
  - reflexivity.
  - destruct verdict; [contradiction Hv |]; reflexivity.
Qed.

Lemma clean_corrected (r : row) (s : stage) :
  cell_eqb (corrected_stage (Stage5SelfLearning.clean r)) (stage_name s)
  = cell_eqb (str_lower (corrected_stage r)) (stage_name s).
Proof. simpl. destruct (corrected_stage r); destruct s; reflexivity. Qed.

Lemma filter_map_swap {A B : Type} (f : A -> B) (p : B -> bool) (l : list A) :
  filter p (map f l) = map f (filter (fun a => p (f a)) l).
Proof.
  induction l as [|a l IH]; simpl; [reflexivity |].
  destruct (p (f a)); simpl; rewrite IH; reflexivity.
Qed.

Lemma filter_filter {A : Type} (p q : A -> bool) (l : list A) :
  filter q (filter p l) = filter (fun a => p a && q a) l.
Proof.
  induction l as [|a l IH]; simpl; [reflexivity |].
  destruct (p a); simpl; [destruct (q a) |]; rewrite IH; reflexivity.
Qed.

(** The sample sets do not change when every row is replaced by a row with
    the same score, the same marks and the same stage matches. *)
Lemma scores_map (norm norm' : cell -> cell) (f : row -> row) (rows : list row)
    (s : string) :
  (forall r : row, similarity (f r) = similarity r) ->
  (forall r : row, marked (f r) "yes" = marked r "yes") ->
  (forall r : row, marked (f r) "no" = marked r "no") ->
  (forall r : row, cell_eqb (norm' (predicted_stage (f r))) s
                   = cell_eqb (norm (predicted_stage r)) s) ->
  (forall r : row, cell_eqb (norm' (corrected_stage (f r))) s
                   = cell_eqb (norm (corrected_stage r)) s) ->
  scores norm' (map f rows) s = scores norm rows s.
Proof.
  intros Hsim Hyes Hno Hp Hc. unfold scores.
  rewrite !filter_map_swap, !map_map.
  f_equal.
  - rewrite (map_ext _ similarity) by (intros r; apply Hsim).
    f_equal. apply filter_ext. intros r. rewrite Hyes, Hp. reflexivity.
  - rewrite (map_ext _ similarity) by (intros r; apply Hsim).
    f_equal. apply filter_ext. intros r. rewrite Hno, Hc. reflexivity.
Qed.

(** Reading the fields changes no sample set. *)
Lemma scores_read_lower (rows : list row) (s : stage) :
  scores str_lower (read_csv rows) (stage_name s)
  = scores str_lower rows (stage_name s).
Proof.
  apply scores_map; intros r; try reflexivity.
  - apply marked_read. left. reflexivity.
  - apply marked_read. right. reflexivity.
  - apply read_cell_lower, stage_name_not_na.
  - apply read_cell_lower, stage_name_not_na.
Qed.

Lemma scores_read_as_read (rows : list row) (s : stage) :
  scores as_read (read_csv rows) (stage_name s)
  = scores as_read rows (stage_name s).
Proof.
  apply scores_map; intros r; try reflexivity.
  - apply marked_read. left. reflexivity.
  - apply marked_read. right. reflexivity.
  - apply read_cell_as_read, stage_name_not_na.
  - apply read_cell_as_read, stage_name_not_na.
Qed.

(** The list [stage_sims] of [stage5_self_learning.py], computed on the
    cleaned frame, is the sample set of the stage. *)
Lemma self_learning_sims (rows : list row) (s : stage) :
  let df := map Stage5SelfLearning.clean rows in
  Stage5SelfLearning.stage_sims
    (Stage5SelfLearning.correct df) (Stage5SelfLearning.incorrect df) (stage_name s)
  = scores str_lower rows (stage_name s).
Proof.
  unfold Stage5SelfLearning.stage_sims, Stage5SelfLearning.correct,
    Stage5SelfLearning.incorrect, scores.
  cbv zeta. rewrite !filter_map_swap, !filter_filter, !map_map.
  f_equal.
  - rewrite (map_ext _ similarity) by reflexivity.
    f_equal. apply filter_ext. intros r.
    rewrite (clean_marked r "yes") by discriminate. reflexivity.
  - rewrite (map_ext _ similarity) by reflexivity.
    f_equal. apply filter_ext. intros r.
    rewrite (clean_marked r "no") by discriminate.
    rewrite clean_corrected. reflexivity.
Qed.

(** Likewise for [stage_similarities] of [stage5_working.py]. *)
Lemma working_sims (df : list row) (s : string) :
  Stage5Working.stage_similarities
    (Stage5Working.correct_predictions df) (Stage5Working.incorrect_predictions df) s
  = scores as_read df s.
Proof.
  unfold Stage5Working.stage_similarities, Stage5Working.correct_predictions,
    Stage5Working.incorrect_predictions, scores.
  rewrite !filter_filter. reflexivity.
Qed.

(** The table of each script, read off the rows of the log. *)
Lemma self_learning_table (rows : list row) :
  let df := map Stage5SelfLearning.clean (read_csv rows) in
  Stage5SelfLearning.stage_thresholds
    (Stage5SelfLearning.correct df) (Stage5SelfLearning.incorrect df)
  = map (fun k => (k, band_of Lib.np_mean Lib.np_std Lib.py_round3
                        (scores str_lower rows k)))
      (filter (fun k => negb (no_scores (scores str_lower rows k))) stages).
Proof.
  cbv zeta. rewrite stage_thresholds_loop, threshold_loop_entries.
  apply map_filter_stages; intros s;
    change (sims_of ?c ?i ?k) with (Stage5SelfLearning.stage_sims c i k);
    rewrite self_learning_sims, scores_read_lower; reflexivity.
Qed.

Lemma working_table (rows : list row) :
  let df := read_csv rows in
  Stage5Working.adaptive_thresholds
    (Stage5Working.correct_predictions df) (Stage5Working.incorrect_predictions df)
  = map (fun k => (k, band_of Lib.np_mean Lib.np_std Lib.np_round3
                        (scores as_read rows k)))
      (filter (fun k => negb (no_scores (scores as_read rows k))) stages).
Proof.
  cbv zeta. rewrite adaptive_thresholds_loop, threshold_loop_entries.
  apply map_filter_stages; intros s;
    change (sims_of ?c ?i ?k) with (Stage5Working.stage_similarities c i k);
    rewrite working_sims, scores_read_as_read; reflexivity.
Qed.

(** When [stage5_self_learning.py] reaches its loop. *)
Lemma self_learning_incorrect_length (rows : list row) :
  List.length (Stage5SelfLearning.incorrect (map Stage5SelfLearning.clean rows))
  = List.length (filter (fun r => marked r "no") rows).
Proof.
  unfold Stage5SelfLearning.incorrect. rewrite filter_map_swap, length_map.
  f_equal. apply filter_ext. intros r. apply clean_marked. discriminate.
Qed.

Lemma length_filter_zero {A : Type} (p : A -> bool) (l : list A) :
  (List.length (filter p l) =? 0)%nat = negb (existsb p l).
Proof.
  induction l as [|a l IH]; [reflexivity |].
  simpl. destruct (p a); [reflexivity | exact IH].
Qed.

Lemma marked_no_read (rows : list row) :
  existsb (fun r => marked r "no") (read_csv rows)
  = existsb (fun r => marked r "no") rows.
Proof.
  unfold read_csv. rewrite existsb_map.
  induction rows as [|r rows IH]; [reflexivity |].
  cbn [existsb]. rewrite IH, marked_read by (right; reflexivity). reflexivity.
Qed.

(** The three ways [stage5_self_learning.py] ends on a log. *)
Lemma self_learning_run (rows : list row) :
  Stage5SelfLearning.run (Some rows)
  = if Stage5SelfLearning.cleanable (read_csv rows)
    then if existsb (fun r => marked r "no") rows
         then Saved
                (map (fun k => (k, band_of Lib.np_mean Lib.np_std Lib.py_round3
                                     (scores str_lower rows k)))
                   (filter (fun k => negb (no_scores (scores str_lower rows k)))
                      stages))
         else SystemExit 0
    else Raised AttributeError.
Proof.
  unfold Stage5SelfLearning.run.
  destruct (Stage5SelfLearning.cleanable (read_csv rows)); [| reflexivity].
  rewrite self_learning_incorrect_length, length_map, length_filter_zero.
  rewrite marked_no_read.
  destruct (existsb _ rows) eqn:Hex.
  - destruct rows as [|r rows]; [discriminate Hex |].
    cbn [read_csv map List.length Nat.eqb negb].
    f_equal. apply (self_learning_table (r :: rows)).
  - cbn [negb]. destruct (List.length (read_csv rows) =? 0)%nat; reflexivity.
Qed.

(** The two ways [stage5_working.py] ends on a log. *)
Lemma working_run (rows : list row) :
  Stage5Working.run (Some rows)
  = if Pandas.str_accessor (map is_correct (read_csv rows))
    then Saved
           (map (fun k => (k, band_of Lib.np_mean Lib.np_std Lib.np_round3
                                (scores as_read rows k)))
              (filter (fun k => negb (no_scores (scores as_read rows k))) stages))
    else Raised AttributeError.
Proof.
  unfold Stage5Working.run.
  destruct (Pandas.str_accessor _); [| reflexivity].
  f_equal. apply working_table.
Qed.

(** ** Tables in terms of the log *)

Lemma band_of_rounded (round3 : float -> float) (sims : list float) :
  band_rounded round3 sims (band_of Lib.np_mean Lib.np_std round3 sims).
Proof. repeat split. Qed.

Lemma self_learning_entries (rows : list row) (t : threshold_table) :
  Stage5SelfLearning.run (Some rows) = Saved t ->
  t = map (fun k => (k, band_of Lib.np_mean Lib.np_std Lib.py_round3
                          (scores str_lower rows k)))
        (filter (fun k => negb (no_scores (scores str_lower rows k))) stages).
Proof.
  rewrite self_learning_run.
  destruct (Stage5SelfLearning.cleanable _); [| discriminate].
  destruct (existsb _ rows); [| discriminate].
  intros H. injection H as <-. reflexivity.
Qed.

Lemma working_entries (df : list row) (t : threshold_table) :
  Stage5Working.run (Some df) = Saved t ->
  t = map (fun k => (k, band_of Lib.np_mean Lib.np_std Lib.np_round3
                          (scores as_read df k)))
        (filter (fun k => negb (no_scores (scores as_read df k))) stages).
Proof.
  rewrite working_run. destruct (Pandas.str_accessor _); [| discriminate].
  intros H. injection H as <-. reflexivity.
Qed.

(** The entry of a stage in a table of that shape. *)
Lemma entries_get (round3 : float -> float) (sc : string -> list float)
    (s : stage) :
  dict_get (stage_name s)
    (map (fun k => (k, band_of Lib.np_mean Lib.np_std round3 (sc k)))
       (filter (fun k => negb (no_scores (sc k))) stages))
  = match sc (stage_name s) with
    | [] => None
    | sims => Some (band_of Lib.np_mean Lib.np_std round3 sims)
    end.
Proof.
  unfold stages. cbn [filter].
  destruct s; cbn [stage_name];
    destruct (sc "foundation") as [|? ?] eqn:E1,
      (sc "mounting") as [|? ?] eqn:E2,
      (sc "installation") as [|? ?] eqn:E3;
    cbn [negb no_scores map dict_get String.eqb Ascii.eqb Bool.eqb];
    rewrite ?E1, ?E2, ?E3; reflexivity.
Qed.

(** What [stage5_self_learning.py] stores for a stage, when it stores a
    table at all. *)
Lemma self_learning_get (rows : list row) (t : threshold_table) (s : stage) :
  Stage5SelfLearning.run (Some rows) = Saved t ->
  dict_get (stage_name s) t
  = match scores str_lower rows (stage_name s) with
    | [] => None
    | sims => Some (band_of Lib.np_mean Lib.np_std Lib.py_round3 sims)
    end.
Proof.
  intros H. rewrite (self_learning_entries rows t H). apply entries_get.
Qed.

(** What [stage5_working.py] stores for a stage, when it stores a table. *)
Lemma working_get (df : list row) (t : threshold_table) (s : stage) :
  Stage5Working.run (Some df) = Saved t ->
  dict_get (stage_name s) t
  = match scores as_read df (stage_name s) with
    | [] => None
    | sims => Some (band_of Lib.np_mean Lib.np_std Lib.np_round3 sims)
    end.
Proof.
  intros H. rewrite (working_entries df t H). apply entries_get.
Qed.

(** C2, as the code has it.  Whenever a learner script gets to store a
    table, every stage whose sample set (scores of the rows marked yes and
    predicted as the stage, then scores of the rows marked no and corrected
    to the stage) is not empty has a band in it, made of the mean, the
    population standard deviation, the mean minus the deviation and the mean
    plus the deviation, each rounded to three decimals, and of the number of
    samples.  On the log "0.55 predicted Foundation, corrected to Mounting;
    0.77 predicted Mounting, confirmed" both scripts store exactly a Mounting
    band over the scores 0.77 and 0.55, with mean 0.66, deviation 0.11,
    bounds 0.55 and 0.77 and sample size 2. *)
Theorem recompute_bands :
  (forall (rows : list row) (t : threshold_table) (s : stage),
     Stage5SelfLearning.run (Some rows) = Saved t ->
     scores str_lower rows (stage_name s) <> [] ->
     exists b : threshold_band,
       dict_get (stage_name s) t = Some b
       /\ band_rounded Lib.py_round3 (scores str_lower rows (stage_name s)) b)
  /\ (forall (df : list row) (t : threshold_table) (s : stage),
     Stage5Working.run (Some df) = Saved t ->
     scores as_read df (stage_name s) <> [] ->
     exists b : threshold_band,
       dict_get (stage_name s) t = Some b
       /\ band_rounded Lib.np_round3 (scores as_read df (stage_name s)) b)
  /\ scores str_lower Logs.corrected_then_confirmed "mounting"
     = [F64.dec 77 2; F64.dec 55 2]
  /\ scores as_read Logs.corrected_then_confirmed "mounting"
     = [F64.dec 77 2; F64.dec 55 2]
  /\ Stage5SelfLearning.run (Some Logs.corrected_then_confirmed)
     = Saved [("mounting",
               mkBand (F64.dec 66 2) (F64.dec 11 2) (F64.dec 55 2) (F64.dec 77 2) 2)]
  /\ Stage5Working.run (Some Logs.corrected_then_confirmed)
     = Saved [("mounting",
               mkBand (F64.dec 66 2) (F64.dec 11 2) (F64.dec 55 2) (F64.dec 77 2) 2)].
Proof.
  split; [| split; [| split; [| split; [| split]]]];
    [ | | vm_compute; reflexivity ..].
  - intros rows t s Hrun Hne.
    rewrite (self_learning_get rows t s Hrun).
    destruct (scores str_lower rows (stage_name s)) as [|x l] eqn:E;
      [contradiction Hne; reflexivity |].
    eexists. split; [reflexivity | apply band_of_rounded].
  - intros df t s Hrun Hne.
    rewrite (working_get df t s Hrun).
    destruct (scores as_read df (stage_name s)) as [|x l] eqn:E;
      [contradiction Hne; reflexivity |].
    eexists. split; [reflexivity | apply band_of_rounded].
Qed.

Lemma recompute_bands_witness :
  exists b : threshold_band,
    dict_get "mounting"
      [("mounting",
        mkBand (F64.dec 66 2) (F64.dec 11 2) (F64.dec 55 2) (F64.dec 77 2) 2)]
    = Some b
    /\ band_rounded Lib.py_round3
         (scores str_lower Logs.corrected_then_confirmed "mounting") b.
Proof.
  apply (proj1 recompute_bands Logs.corrected_then_confirmed _ mounting).
  - vm_compute. reflexivity.
  - vm_compute. discriminate.
Defined.

(** C2, as the specification states it, fails: on the log "0.56 predicted
    Foundation, corrected to Mounting; 0.7608 predicted Mounting, confirmed"
    both scripts store the Mounting band 0.66 / 0.1 / 0.56 / 0.761.  Its mean
    is not the mean 0.6604 of the two scores, and its upper bound 0.761 is
    not its mean plus its deviation, 0.76. *)
Lemma recompute_bands_not_exact :
  let sims := scores str_lower Logs.four_decimals "mounting" in
  let b := mkBand (F64.dec 66 2) (F64.dec 1 1) (F64.dec 56 2) (F64.dec 761 3) 2 in
  Stage5SelfLearning.run (Some Logs.four_decimals) = Saved [("mounting", b)]
  /\ Stage5Working.run (Some Logs.four_decimals) = Saved [("mounting", b)]
  /\ sims = [F64.dec 7608 4; F64.dec 56 2]
  /\ mean_similarity b <> Lib.np_mean sims
  /\ recommended_max b <> F64.add (mean_similarity b) (std_dev b)
  /\ ~ band_exact sims b.
Proof.
  cbv zeta.
  split; [| split; [| split; [| split; [| split]]]].
  - vm_compute. reflexivity.
  - vm_compute. reflexivity.
  - vm_compute. reflexivity.
  - vm_compute. discriminate.
  - vm_compute. discriminate.
  - intros (H & _). revert H. vm_compute. discriminate.
Qed.

(** The order in which numpy adds matters from eight scores on: the mean of
    these eight is 0.8675 and is stored as 0.868, where the sum in index
    order would give 0.8674999999999999 and 0.867. *)
Lemma mean_of_eight :
  Lib.py_round3 (Lib.np_mean Logs.eight_scores) = F64.dec 868 3
  /\ Lib.np_round3 (Lib.np_mean Logs.eight_scores) = F64.dec 868 3
  /\ Lib.py_round3
       (F64.div (fold_left F64.add Logs.eight_scores F64.zero)
          (Lib.flen Logs.eight_scores))
     = F64.dec 867 3.
Proof. split; [| split]; vm_compute; reflexivity. Qed.

(** C3, as the code has it.  On the log made of the single row "0.75
    predicted Mounting, confirmed", [stage5_working.py] stores exactly one
    band, for Mounting, with mean 0.75, deviation 0.0, bounds 0.75 and 0.75
    and sample size 1, so Foundation and Installation have no entry.
    [stage5_self_learning.py] would compute the same single band in its
    loop, but it does not get there: no row is marked no, and the script ends
    with [SystemExit(0)] without storing a table. *)
Theorem single_confirmed_row :
  let band := mkBand (F64.dec 75 2) F64.zero (F64.dec 75 2) (F64.dec 75 2) 1 in
  Stage5Working.run (Some [Logs.confirmed_mounting]) = Saved [("mounting", band)]
  /\ dict_get "foundation" [("mounting", band)] = None
  /\ dict_get "installation" [("mounting", band)] = None
  /\ (let df := map Stage5SelfLearning.clean [Logs.confirmed_mounting] in
      Stage5SelfLearning.stage_thresholds
        (Stage5SelfLearning.correct df) (Stage5SelfLearning.incorrect df)
      = [("mounting", band)])
  /\ Stage5SelfLearning.run (Some [Logs.confirmed_mounting]) = SystemExit 0.
Proof.
  cbv zeta. split; [| split; [| split; [| split]]]; vm_compute; reflexivity.
Qed.

(** C3, as the specification states it, fails for
    [stage5_self_learning.py]: the run on that log ends the process and
    yields no table. *)
Lemma single_confirmed_row_exits :
  exits (Stage5SelfLearning.run (Some [Logs.confirmed_mounting])) = true
  /\ forall t : threshold_table,
       Stage5SelfLearning.run (Some [Logs.confirmed_mounting]) <> Saved t.
Proof. split; [reflexivity |]. intros t. vm_compute. discriminate. Qed.

(** C4, as the code has it.  On the empty feedback log
    [stage5_self_learning.py] raises [SystemExit(0)], which ends the process
    with status 0 before any table is computed or stored; [stage5_working.py]
    has no such check and stores the empty table. *)
Theorem empty_log_exit :
  Stage5SelfLearning.run (Some []) = SystemExit 0
  /\ exits (Stage5SelfLearning.run (Some [])) = true
  /\ Stage5Working.run (Some []) = Saved [].
Proof. split; [| split]; reflexivity. Qed.

(** C4, as the specification states it, fails: the run on the empty log
    is not handed back to a caller as an error value, it is a process
    termination. *)
Lemma empty_log_terminates_process :
  exits (Stage5SelfLearning.run (Some [])) <> false.
Proof. vm_compute. discriminate. Qed.

(** ** Rows that contribute nothing *)

Lemma filter_none {A : Type} (p : A -> bool) (l : list A) :
  (forall a : A, In a l -> p a = false) -> filter p l = [].
Proof.
  induction l as [|a l IH]; intros H; [reflexivity |].
  cbn [filter]. rewrite (H a (or_introl eq_refl)).
  apply IH. intros a' Hin. apply H. right. exact Hin.
Qed.

Lemma scores_nil (norm : cell -> cell) (log : list row) (s : string) :
  (forall r : row, In r log -> contributes norm r s = false) ->
  scores norm log s = [].
Proof.
  intros H. unfold scores.
  rewrite !filter_none; [reflexivity | |];
    intros r Hin; specialize (H r Hin); unfold contributes in H;
    apply orb_false_elim in H; apply H.
Qed.


(** A row marked no is not marked yes. *)
Lemma marked_no_not_yes (r : row) : marked r "no" = true -> marked r "yes" = false.
Proof.
  unfold marked. destruct (str_lower (is_correct r)) as [c|]; simpl; [| discriminate].
  intros H. apply String.eqb_eq in H. subst c. reflexivity.
Qed.



(** C7. Whatever the feedback log, a stage to which no row contributes
    (no row marked yes was predicted as the stage, no row marked no was
    corrected to it) is absent from the table a learner script stores: the
    table has no entry for it, zero-filled or otherwise.  This holds for
    both scripts. *)
Theorem empty_band_omitted (log : list row) (t : threshold_table) (s : stage) :
  (Stage5SelfLearning.run (Some log) = Saved t ->
   (forall r : row, In r log -> contributes str_lower r (stage_name s) = false) ->
   dict_get (stage_name s) t = None)
  /\ (Stage5Working.run (Some log) = Saved t ->
   (forall r : row, In r log -> contributes as_read r (stage_name s) = false) ->
   dict_get (stage_name s) t = None).
Proof.
  split; intros Hrun Hnone.
  - rewrite (self_learning_get log t s Hrun), (scores_nil _ _ _ Hnone). reflexivity.
  - rewrite (working_get log t s Hrun), (scores_nil _ _ _ Hnone). reflexivity.
Qed.

Lemma empty_band_omitted_witness :
  dict_get "foundation"
    [("mounting",
      mkBand (F64.dec 66 2) (F64.dec 11 2) (F64.dec 55 2) (F64.dec 77 2) 2)]
  = None.
Proof.
  apply (proj1 (empty_band_omitted Logs.corrected_then_confirmed _ foundation)).
  - vm_compute. reflexivity.
  - intros r [<- | [<- | []]]; reflexivity.
Defined.





(** * Further properties of the scripts *)

(** ** Stage 3 scripts *)

Lemma c50_lt_c60 : F64.ltb (F64.dec 50 2) (F64.dec 60 2) = true.
Proof. vm_compute. reflexivity. Qed.

Lemma c50_lt_c70 : F64.ltb (F64.dec 50 2) (F64.dec 70 2) = true.
Proof. vm_compute. reflexivity. Qed.

(** A score below 0.50 is a Foundation score for every classifier. *)
Lemma below_half_foundation (x : float) :
  F64.ltb x (F64.dec 50 2) = true ->
  Stage3RuleBased.determine_stage x = foundation
  /\ Stage3Working.determine_stage x = foundation.
Proof.
  intros H. split.
  - apply rule_based_foundation.
    eapply F64Facts.ltb_trans; [exact H | exact c50_lt_c60].
  - apply working_foundation.
    eapply F64Facts.ltb_trans; [exact H | exact c50_lt_c70].
Qed.

Lemma combine_map_r {A B : Type} (f : A -> B) (l : list A) :
  combine l (map f l) = map (fun a => (a, f a)) l.
Proof. induction l as [|a l IH]; simpl; [| rewrite IH]; reflexivity. Qed.

(** The frame of [stage3_rule_based_analysis.py], row by row. *)
Lemma classify_rows (data : list comparison) :
  Stage3RuleBasedScript.classify data
  = map (fun c =>
           let x := if Stage3RuleBasedScript.has_similarity_column data
                    then match comparison_similarity c with
                         | Number x => x
                         | _ => F64.nan
                         end
                    else F64.zero in
           S3.mkResult (comparison_image c) x (Stage3RuleBased.determine_stage x))
        data.
Proof.
  unfold Stage3RuleBasedScript.classify, Stage3RuleBasedScript.similarity_column.
  destruct (Stage3RuleBasedScript.has_similarity_column data);
    rewrite combine_map_r, map_map; reflexivity.
Qed.

Lemma filter_length_le_filter {A : Type} (p q : A -> bool) (l : list A) :
  (forall a : A, In a l -> p a = true -> q a = true) ->
  (List.length (filter p l) <= List.length (filter q l))%nat.
Proof.
  induction l as [|a l IH]; intros H; [apply le_n |].
  cbn [filter].
  assert (IH' : (List.length (filter p l) <= List.length (filter q l))%nat)
    by (apply IH; intros b Hb; apply H; right; exact Hb).
  destruct (p a) eqn:Hp.
  - rewrite (H a (or_introl eq_refl) Hp). cbn [List.length]. lia.
  - destruct (q a); cbn [List.length]; lia.
Qed.

Lemma classify_predicted (data : list comparison) (r : S3.result) :
  In r (Stage3RuleBasedScript.classify data) ->
  S3.predicted_stage r = Stage3RuleBased.determine_stage (S3.similarity r).
Proof.
  rewrite classify_rows. intros H. apply in_map_iff in H.
  destruct H as (c & <- & _). reflexivity.
Qed.

(** X1. In [stage3_rule_based_analysis.py] every row flagged as an
    anomaly (similarity below 0.50) carries the predicted stage Foundation,
    so the anomaly count never exceeds the Foundation count of the stage
    summary. *)
Theorem anomalies_are_foundation (data : list comparison) :
  (forall r : S3.result,
     In r (Stage3RuleBasedScript.anomalies (Stage3RuleBasedScript.classify data)) ->
     S3.predicted_stage r = foundation)
  /\ (List.length (Stage3RuleBasedScript.anomalies
                     (Stage3RuleBasedScript.classify data))
      <= S3.value_count foundation (Stage3RuleBasedScript.classify data))%nat.
Proof.
  assert (Hrow : forall r : S3.result,
             In r (Stage3RuleBasedScript.classify data) ->
             F64.ltb (S3.similarity r) (F64.dec 50 2) = true ->
             S3.predicted_stage r = foundation).
  { intros r Hin Hlt. rewrite (classify_predicted data r Hin).
    apply below_half_foundation, Hlt. }
  split.
  - intros r Hin. unfold Stage3RuleBasedScript.anomalies in Hin.
    apply filter_In in Hin. destruct Hin as [Hin Hlt]. apply Hrow; assumption.
  - unfold Stage3RuleBasedScript.anomalies, S3.value_count.
    apply filter_length_le_filter. intros r Hin Hlt.
    rewrite (Hrow r Hin Hlt). reflexivity.
Qed.

Lemma anomalies_are_foundation_witness :
  S3.predicted_stage (S3.mkResult "a.jpg" (F64.dec 31 2) foundation) = foundation.
Proof.
  apply (proj1 (anomalies_are_foundation
                  [mkComparison "a.jpg" (Number (F64.dec 31 2)) None;
                   mkComparison "b.jpg" (Number (F64.dec 91 2)) None])).
  vm_compute. left. reflexivity.
Defined.

Lemma no_column_all_absent (data : list comparison) (c : comparison) :
  Stage3RuleBasedScript.has_similarity_column data = false ->
  In c data -> comparison_similarity c = Absent.
Proof.
  unfold Stage3RuleBasedScript.has_similarity_column. intros H Hin.
  destruct (comparison_similarity c) eqn:E; [reflexivity | |];
    exfalso;
    assert (Hex : existsb (fun c => match comparison_similarity c with
                                    | Absent => false
                                    | _ => true
                                    end) data = true)
      by (apply existsb_exists; exists c; rewrite E; split; [exact Hin | reflexivity]);
    rewrite Hex in H; discriminate H.
Qed.

(** X2. [stage3_rule_based_analysis.py] on records without a usable
    similarity.  When no record has the key, the column is created as 0.0:
    every image is classified Foundation and every image is an anomaly.
    When some record has the key, a record without a number becomes a row
    with NaN, which is classified Foundation but is not an anomaly. *)
Theorem missing_similarity (data : list comparison) :
  (Stage3RuleBasedScript.has_similarity_column data = false ->
   (forall r : S3.result,
      In r (Stage3RuleBasedScript.classify data) ->
      S3.similarity r = F64.zero /\ S3.predicted_stage r = foundation)
   /\ Stage3RuleBasedScript.anomalies (Stage3RuleBasedScript.classify data)
      = Stage3RuleBasedScript.classify data)
  /\ (Stage3RuleBasedScript.has_similarity_column data = true ->
      forall c : comparison,
        In c data ->
        (forall x : float, comparison_similarity c <> Number x) ->
        let r := S3.mkResult (comparison_image c) F64.nan foundation in
        In r (Stage3RuleBasedScript.classify data)
        /\ ~ In r (Stage3RuleBasedScript.anomalies
                     (Stage3RuleBasedScript.classify data))).
Proof.
  split.
  - intros Hno. rewrite classify_rows, Hno. split.
    + intros r Hin. apply in_map_iff in Hin. destruct Hin as (c & <- & _).
      split; reflexivity.
    + unfold Stage3RuleBasedScript.anomalies. clear Hno.
      induction data as [|c data' IH]; [reflexivity |].
      cbn [map filter S3.similarity].
      replace (F64.ltb F64.zero (F64.dec 50 2)) with true
        by (vm_compute; reflexivity).
      f_equal. exact IH.
  - intros Hcol c Hin Hnum. cbv zeta. split.
    + rewrite classify_rows, Hcol. apply in_map_iff. exists c.
      split; [| exact Hin].
      destruct (comparison_similarity c) as [| |x] eqn:E;
        [reflexivity | reflexivity | contradiction (Hnum x eq_refl)].
    + unfold Stage3RuleBasedScript.anomalies. intros Hf.
      apply filter_In in Hf. destruct Hf as [_ Hlt]. discriminate Hlt.
Qed.

Lemma missing_similarity_witness :
  let data := [mkComparison "a.jpg" Absent None; mkComparison "b.jpg" Absent None] in
  Stage3RuleBasedScript.anomalies (Stage3RuleBasedScript.classify data)
  = Stage3RuleBasedScript.classify data.
Proof.
  cbv zeta.
  apply (proj1 (missing_similarity
                  [mkComparison "a.jpg" Absent None;
                   mkComparison "b.jpg" Absent None])).
  reflexivity.
Defined.

(** ** When [stage3_working.py] completes *)

Lemma process_results (data : list comparison) (results : list S3.result) :
  Stage3WorkingScript.process data = inr results ->
  (forall c : comparison,
     In c data -> exists x : float, comparison_similarity c = Number x)
  /\ results
     = map (fun c =>
              match comparison_similarity c with
              | Number x =>
                  S3.mkResult (comparison_image c) x (Stage3Working.determine_stage x)
              | _ => S3.mkResult (comparison_image c) F64.nan foundation
              end) data.
Proof.
  revert results. induction data as [|c data IH]; intros results H.
  - injection H as <-. split; [intros c [] | reflexivity].
  - cbn [Stage3WorkingScript.process] in H.
    unfold Stage3WorkingScript.stage_of_item in H.
    destruct (comparison_similarity c) as [| |x] eqn:E; try discriminate H.
    destruct (Stage3WorkingScript.process data) as [e|rest] eqn:P;
      [discriminate H |].
    injection H as <-. destruct (IH rest eq_refl) as [Hall Hrest]. split.
    + intros c' [<- | Hin]; [exists x; exact E | apply Hall, Hin].
    + cbn [map]. rewrite E, <- Hrest. reflexivity.
Qed.

Lemma process_numbers (data : list comparison) :
  (forall c : comparison,
     In c data -> exists x : float, comparison_similarity c = Number x) ->
  exists results : list S3.result,
    Stage3WorkingScript.process data = inr results
    /\ List.length results = List.length data.
Proof.
  induction data as [|c data IH]; intros H.
  - exists []. split; reflexivity.
  - destruct (H c (or_introl eq_refl)) as [x Hx].
    destruct IH as (rest & Hrest & Hlen);
      [intros c' Hin; apply H; right; exact Hin |].
    exists (S3.mkResult (comparison_image c) x (Stage3Working.determine_stage x)
            :: rest).
    cbn [Stage3WorkingScript.process]. unfold Stage3WorkingScript.stage_of_item.
    rewrite Hx, Hrest. split; [reflexivity | cbn [List.length]; rewrite Hlen; reflexivity].
Qed.

(** The loop stops at the first record without a number. *)
Lemma process_first_failure (numeric : list comparison) (c : comparison)
    (rest : list comparison) :
  (forall c' : comparison,
     In c' numeric -> exists x : float, comparison_similarity c' = Number x) ->
  Stage3WorkingScript.process (numeric ++ c :: rest)
  = match comparison_similarity c with
    | Absent => inl KeyError
    | Null => inl TypeError
    | Number _ =>
        Stage3WorkingScript.process (numeric ++ c :: rest)
    end.
Proof.
  induction numeric as [|c' numeric IH]; intros H.
  - cbn [app Stage3WorkingScript.process]. unfold Stage3WorkingScript.stage_of_item.
    destruct (comparison_similarity c); reflexivity.
  - destruct (comparison_similarity c) eqn:E; [| | reflexivity];
      cbn [app Stage3WorkingScript.process];
      unfold Stage3WorkingScript.stage_of_item at 1;
      destruct (H c' (or_introl eq_refl)) as [x Hx]; rewrite Hx;
      rewrite IH by (intros c2 Hin; apply H; right; exact Hin);
      reflexivity.
Qed.

Lemma process_exceptions (data : list comparison) (e : exn) :
  Stage3WorkingScript.process data = inl e -> e = KeyError \/ e = TypeError.
Proof.
  induction data as [|c data IH]; [discriminate |].
  cbn [Stage3WorkingScript.process]. unfold Stage3WorkingScript.stage_of_item.
  destruct (comparison_similarity c).
  - intros H. injection H as <-. left. reflexivity.
  - intros H. injection H as <-. right. reflexivity.
  - destruct (Stage3WorkingScript.process data) as [e'|rs]; [| discriminate].
    intros H. injection H as <-. apply IH. reflexivity.
Qed.

(** X3. [stage3_working.py] saves and charts a classification exactly
    when the Stage 2 file holds at least one record and every record has a
    numeric similarity; the frame then has one row per record.  Otherwise it
    ends with an exception.  It is raised at the first record without a
    number, before anything is saved: [KeyError] if that record has no
    similarity key, [TypeError] if its similarity is null.  When the file
    holds no record, [KeyError] is raised after the empty frame has been
    saved.  No other exception comes from the classification. *)
Theorem working_script_completes (data : list comparison) :
  ((exists df : list S3.result,
      Stage3WorkingScript.run (Some data) = Stage3WorkingScript.Summary df)
   <-> data <> []
       /\ forall c : comparison,
            In c data -> exists x : float, comparison_similarity c = Number x)
  /\ (forall df : list S3.result,
        Stage3WorkingScript.run (Some data) = Stage3WorkingScript.Summary df ->
        List.length df = List.length data)
  /\ (forall (numeric : list comparison) (c : comparison) (rest : list comparison),
        data = (numeric ++ c :: rest)%list ->
        (forall c' : comparison,
           In c' numeric -> exists x : float, comparison_similarity c' = Number x) ->
        (comparison_similarity c = Absent ->
         Stage3WorkingScript.run (Some data)
         = Stage3WorkingScript.Raised KeyError None)
        /\ (comparison_similarity c = Null ->
            Stage3WorkingScript.run (Some data)
            = Stage3WorkingScript.Raised TypeError None))
  /\ (forall (e : exn) (saved : option (list S3.result)),
        Stage3WorkingScript.run (Some data) = Stage3WorkingScript.Raised e saved ->
        (saved = None /\ (e = KeyError \/ e = TypeError))
        \/ (data = [] /\ saved = Some [] /\ e = KeyError))
  /\ Stage3WorkingScript.run (Some [])
     = Stage3WorkingScript.Raised KeyError (Some []).
Proof.
  split; [| split; [| split; [| split; [| reflexivity]]]].
  - split.
    + intros [df H]. unfold Stage3WorkingScript.run in H.
      destruct (Stage3WorkingScript.process data) as [e|results] eqn:P;
        [discriminate H |].
      destruct (process_results data results P) as [Hall Hmap]. split.
      * intros ->. injection P as <-. discriminate H.
      * exact Hall.
    + intros [Hne Hall]. destruct (process_numbers data Hall) as (results & P & Hlen).
      exists results. unfold Stage3WorkingScript.run. rewrite P.
      destruct results as [|r results]; [| reflexivity].
      destruct data; [contradiction Hne; reflexivity | discriminate Hlen].
  - intros df H. unfold Stage3WorkingScript.run in H.
    destruct (Stage3WorkingScript.process data) as [e|results] eqn:P;
      [discriminate H |].
    destruct (process_results data results P) as [_ Hmap].
    destruct results as [|r results]; [discriminate H |].
    injection H as <-. rewrite Hmap, length_map. reflexivity.
  - intros numeric c rest -> Hnum. unfold Stage3WorkingScript.run.
    rewrite (process_first_failure numeric c rest Hnum).
    split; intros E; rewrite E; reflexivity.
  - intros e saved H. unfold Stage3WorkingScript.run in H.
    destruct (Stage3WorkingScript.process data) as [e'|results] eqn:P.
    + left. injection H as <- <-. split; [reflexivity |].
      apply (process_exceptions data), P.
    + destruct results as [|r results]; [| discriminate H].
      right. injection H as <- <-.
      destruct (process_results data [] P) as [_ Hmap].
      destruct data; [auto | discriminate Hmap].
Qed.

Lemma working_script_completes_witness :
  exists df : list S3.result,
    Stage3WorkingScript.run
      (Some [mkComparison "site_001.jpg" (Number (F64.dec 85 2)) None])
    = Stage3WorkingScript.Summary df.
Proof.
  apply (proj1 (working_script_completes
                  [mkComparison "site_001.jpg" (Number (F64.dec 85 2)) None])).
  split.
  - discriminate.
  - intros c [<- | []]. exists (F64.dec 85 2). reflexivity.
Defined.

(** ** The classifiers side by side *)

(** Where the two [determine_stage] functions give the same answer. *)
Lemma variants_agree_iff (x : float) :
  Stage3RuleBased.determine_stage x = Stage3Working.determine_stage x
  <-> ~ (F64.le (F64.dec 60 2) x /\ F64.lt x (F64.dec 70 2)).
Proof.
  unfold F64.le, F64.lt.
  destruct cut_points_not_nan as (N60 & N70 & N80).
  split.
  - intros Heq [Hlo Hhi].
    rewrite (working_foundation x Hhi) in Heq.
    rewrite rule_based_mounting in Heq; [discriminate Heq | exact Hlo |].
    apply F64Facts.ltb_leb.
    eapply F64Facts.ltb_trans; [exact Hhi | exact c70_lt_c80].
  - intros Hout.
    destruct (F64.ltb (F64.dec 80 2) x) eqn:H80.
    + rewrite rule_based_installation, working_installation by exact H80.
      reflexivity.
    + destruct (F64.leb (F64.dec 70 2) x) eqn:H70.
      * destruct (F64Facts.leb_not_nan _ _ H70) as [_ Nx].
        assert (Hhi : F64.leb x (F64.dec 80 2) = true)
          by (apply F64Facts.not_ltb_leb; assumption).
        rewrite (working_mounting x H70 Hhi).
        apply rule_based_mounting; [| exact Hhi].
        apply F64Facts.ltb_leb.
        eapply F64Facts.ltb_leb_trans; [exact c60_lt_c70 | exact H70].
      * unfold Stage3RuleBased.determine_stage, Stage3Working.determine_stage.
        rewrite H80, H70.
        destruct (F64.leb (F64.dec 60 2) x) eqn:H60; [| reflexivity].
        destruct (F64Facts.leb_not_nan _ _ H60) as [_ Nx].
        exfalso. apply Hout. split; [reflexivity |].
        apply F64Facts.not_leb_ltb; assumption.
Qed.

Lemma map_eq_iff {A B : Type} (f g : A -> B) (l : list A) :
  map f l = map g l <-> forall a : A, In a l -> f a = g a.
Proof.
  induction l as [|a l IH]; simpl.
  - split; [intros _ a [] | reflexivity].
  - split.
    + intros H. injection H as Ha Hl. intros b [<- | Hb]; [exact Ha |].
      apply IH; assumption.
    + intros H. f_equal; [apply H; left; reflexivity |].
      apply IH. intros b Hb. apply H. right. exact Hb.
Qed.

(** X4. Run on the same Stage 2 file, with numeric similarities,
    [stage3_rule_based_analysis.py] and [stage3_working.py] save the same
    columns image, similarity and predicted_stage exactly when no similarity
    lies from 0.60 inclusive to 0.70 exclusive.  The first script saves the
    analysis column of the records as well, so the two files have the same
    columns only if no record has an analysis.  On the records
    [stage2_working.py] writes, the scripts disagree on the stage of
    site_003.jpg, whose similarity is 0.68, and the first keeps the
    analysis. *)
Theorem stage3_scripts_agree (data : list comparison) (df : list S3.result) :
  Stage3WorkingScript.run (Some data) = Stage3WorkingScript.Summary df ->
  (Stage3RuleBasedScript.run (Some data) = Stage3RuleBasedScript.Summary df
   <-> forall (c : comparison) (x : float),
         In c data -> comparison_similarity c = Number x ->
         ~ (F64.le (F64.dec 60 2) x /\ F64.lt x (F64.dec 70 2)))
  /\ (Stage3RuleBasedScript.other_columns data = Stage3WorkingScript.other_columns
      <-> forall c : comparison, In c data -> comparison_analysis c = None)
  /\ Stage3RuleBasedScript.run (Some Stage2Working.comparison_results)
     = Stage3RuleBasedScript.Summary
         [S3.mkResult "site_001.jpg" (F64.dec 85 2) installation;
          S3.mkResult "site_002.jpg" (F64.dec 72 2) mounting;
          S3.mkResult "site_003.jpg" (F64.dec 68 2) mounting]
  /\ Stage3WorkingScript.run (Some Stage2Working.comparison_results)
     = Stage3WorkingScript.Summary
         [S3.mkResult "site_001.jpg" (F64.dec 85 2) installation;
          S3.mkResult "site_002.jpg" (F64.dec 72 2) mounting;
          S3.mkResult "site_003.jpg" (F64.dec 68 2) foundation]
  /\ Stage3RuleBasedScript.other_columns Stage2Working.comparison_results
     = [("analysis", map comparison_analysis Stage2Working.comparison_results)].
Proof.
  intros Hw.
  split; [| split; [| split; [| split]]; [| vm_compute; reflexivity ..]].
  - unfold Stage3WorkingScript.run in Hw.
    destruct (Stage3WorkingScript.process data) as [e|results] eqn:P;
      [discriminate Hw |].
    destruct (process_results data results P) as [Hall Hmap].
    destruct results as [|r results]; [discriminate Hw |].
    injection Hw as Hdf.
    assert (Hne : data <> []) by (intros ->; discriminate Hmap).
    rewrite Hmap in Hdf. clear Hmap P r results.
    assert (Hcol : Stage3RuleBasedScript.has_similarity_column data = true).
    { destruct data as [|c data]; [contradiction Hne; reflexivity |].
      destruct (Hall c (or_introl eq_refl)) as [x Hx].
      unfold Stage3RuleBasedScript.has_similarity_column. cbn [existsb].
      rewrite Hx. reflexivity. }
    assert (Hrun : Stage3RuleBasedScript.run (Some data)
                   = Stage3RuleBasedScript.Summary
                       (Stage3RuleBasedScript.classify data))
      by (destruct data; [contradiction Hne; reflexivity | reflexivity]).
    rewrite Hrun, classify_rows, Hcol, <- Hdf. split.
    + intros H c x Hin Hx. injection H as H.
      pose proof (proj1 (map_eq_iff _ _ data) H c Hin) as Hc. cbv beta zeta in Hc.
      rewrite Hx in Hc. apply (f_equal S3.predicted_stage) in Hc.
      apply variants_agree_iff. exact Hc.
    + intros H. f_equal. apply map_eq_iff. intros c Hin. cbv beta zeta.
      destruct (Hall c Hin) as [x Hx]. rewrite Hx. f_equal.
      apply variants_agree_iff. exact (H c x Hin Hx).
  - unfold Stage3RuleBasedScript.other_columns, Stage3WorkingScript.other_columns,
      Stage3RuleBasedScript.analysis_column.
    destruct (existsb _ data) eqn:E; split.
    + discriminate.
    + intros H. apply existsb_exists in E. destruct E as (c & Hin & Hc).
      rewrite (H c Hin) in Hc. discriminate Hc.
    + intros _ c Hin. destruct (comparison_analysis c) eqn:Ec; [| reflexivity].
      assert (Hex : existsb (fun c => match comparison_analysis c with
                                      | Some _ => true
                                      | None => false
                                      end) data = true)
        by (apply existsb_exists; exists c; rewrite Ec; split;
            [exact Hin | reflexivity]).
      rewrite Hex in E. discriminate E.
    + reflexivity.
Qed.

Lemma stage3_scripts_agree_witness :
  let data := [mkComparison "site_001.jpg" (Number (F64.dec 85 2)) None;
               mkComparison "site_002.jpg" (Number (F64.dec 72 2)) None] in
  Stage3RuleBasedScript.run (Some data)
  = Stage3RuleBasedScript.Summary
      [S3.mkResult "site_001.jpg" (F64.dec 85 2) installation;
       S3.mkResult "site_002.jpg" (F64.dec 72 2) mounting].
Proof.
  cbv zeta.
  apply (proj2 (proj1 (stage3_scripts_agree
                  [mkComparison "site_001.jpg" (Number (F64.dec 85 2)) None;
                   mkComparison "site_002.jpg" (Number (F64.dec 72 2)) None] _
                  eq_refl))).
  intros c x [<- | [<- | []]] Hx;
    apply (f_equal (fun n => match n with Number y => y | _ => F64.nan end)) in Hx;
    cbn [comparison_similarity] in Hx; subst x; intros [Hlo Hhi];
    revert Hhi; vm_compute; discriminate.
Defined.

Lemma leb_not_ltb_eqb (a b : float) :
  F64.leb a b = true -> F64.ltb a b = false -> F64.eqb a b = true.
Proof.
  unfold F64.leb, F64.ltb, F64.eqb, SFleb, SFltb, SFeqb.
  destruct (SFcompare a b) as [[]|]; congruence.
Qed.

Lemma eqb_finite_eq (m : positive) (e : Z) (x : float) :
  F64.eqb (S754_finite false m e) x = true -> x = S754_finite false m e.
Proof.
  unfold F64.eqb, SFeqb, SFcompare.
  destruct x as [s|s| |s m' e']; try destruct s; try discriminate.
  destruct (Z.compare_spec e e') as [He| |]; try discriminate.
  destruct (Pos.compare_cont Eq m m') eqn:C; try discriminate.
  intros _. apply (Pos.compare_eq m m') in C. subst. reflexivity.
Qed.

Lemma dec_70_2 : F64.dec 70 2 = S754_finite false 6305039478318694 (-53).
Proof. vm_compute. reflexivity. Qed.

(** X5. The rule of [final_complete_pipeline.py] is the classifier of
    [stage3_working.py] with the bound 0.70 made exclusive: the two give
    different stages for exactly one float, the score 0.70, which the
    pipeline rule calls Foundation and [stage3_working.py] Mounting.  The
    reported progress and panel count never decrease when the score
    increases. *)
Theorem final_rule_vs_working :
  (forall x : float,
     FinalPipeline.detected_stage (FinalPipeline.rule x)
       <> Stage3Working.determine_stage x
     <-> x = F64.dec 70 2)
  /\ FinalPipeline.detected_stage (FinalPipeline.rule (F64.dec 70 2)) = foundation
  /\ Stage3Working.determine_stage (F64.dec 70 2) = mounting
  /\ (forall a b : float,
        F64.lt a b ->
        FinalPipeline.progress_percentage (FinalPipeline.rule a)
          <= FinalPipeline.progress_percentage (FinalPipeline.rule b)
        /\ FinalPipeline.panel_count (FinalPipeline.rule a)
          <= FinalPipeline.panel_count (FinalPipeline.rule b)).
Proof.
  destruct cut_points_not_nan as (_ & N70 & N80).
  split; [| split; [| split]]; [| vm_compute; reflexivity ..|].
  - intros x. split.
    + unfold FinalPipeline.rule, Stage3Working.determine_stage.
      destruct (F64.ltb (F64.dec 80 2) x) eqn:H80;
        [intros H; contradiction H; reflexivity |].
      destruct (F64.ltb (F64.dec 70 2) x) eqn:H70.
      * rewrite (F64Facts.ltb_leb _ _ H70).
        intros H; contradiction H; reflexivity.
      * destruct (F64.leb (F64.dec 70 2) x) eqn:L70;
          [| intros H; contradiction H; reflexivity].
        intros _. pose proof (leb_not_ltb_eqb _ _ L70 H70) as E.
        rewrite dec_70_2 in E |- *. apply eqb_finite_eq, E.
    + intros ->. vm_compute. discriminate.
  - unfold F64.lt. intros a b Hab.
    destruct (F64Facts.ltb_not_nan _ _ Hab) as [Na Nb].
    unfold FinalPipeline.rule.
    destruct (F64.ltb (F64.dec 80 2) b) eqn:Hb80.
    + destruct (F64.ltb (F64.dec 80 2) a), (F64.ltb (F64.dec 70 2) a);
        cbn; split; lia.
    + assert (Hb : F64.leb b (F64.dec 80 2) = true)
        by (apply F64Facts.not_ltb_leb; assumption).
      assert (Ha : F64.ltb a (F64.dec 80 2) = true)
        by (eapply F64Facts.ltb_leb_trans; eassumption).
      rewrite (F64Facts.leb_not_ltb _ _ (F64Facts.ltb_leb _ _ Ha)).
      destruct (F64.ltb (F64.dec 70 2) b) eqn:Hb70.
      * destruct (F64.ltb (F64.dec 70 2) a); cbn; split; lia.
      * assert (Hb' : F64.leb b (F64.dec 70 2) = true)
          by (apply F64Facts.not_ltb_leb; assumption).
        assert (Ha' : F64.ltb a (F64.dec 70 2) = true)
          by exact (F64Facts.ltb_leb_trans _ _ _ Hab Hb').
        rewrite (F64Facts.leb_not_ltb _ _ (F64Facts.ltb_leb _ _ Ha')).
        cbn; split; lia.
Qed.

Lemma final_rule_vs_working_witness :
  FinalPipeline.progress_percentage (FinalPipeline.rule (F64.dec 65 2))
    <= FinalPipeline.progress_percentage (FinalPipeline.rule (F64.dec 81 2))
  /\ FinalPipeline.panel_count (FinalPipeline.rule (F64.dec 65 2))
    <= FinalPipeline.panel_count (FinalPipeline.rule (F64.dec 81 2)).
Proof.
  apply (proj2 (proj2 (proj2 final_rule_vs_working))). reflexivity.
Defined.

(** ** Stage 5: shape of the stored table *)

Lemma entries_shape (round3 : float -> float) (sc : string -> list float)
    (t : threshold_table) :
  t = map (fun k => (k, band_of Lib.np_mean Lib.np_std round3 (sc k)))
        (filter (fun k => negb (no_scores (sc k))) stages) ->
  table_keys t = filter (fun k => negb (no_scores (sc k))) stages
  /\ forall (k : string) (b : threshold_band),
       In (k, b) t -> (1 <= sample_size b)%nat /\ sample_size b = List.length (sc k).
Proof.
  intros ->. split.
  - unfold table_keys. rewrite map_map. cbn [fst]. apply map_id.
  - intros k b Hin. apply in_map_iff in Hin. destruct Hin as (k' & E & Hk).
    injection E as -> <-. apply filter_In in Hk. destruct Hk as [_ Hne].
    cbn [band_of sample_size]. split; [| reflexivity].
    destruct (sc k); [discriminate Hne | cbn [List.length]; lia].
Qed.

(** X6. The table a learner script stores has at most one entry per
    stage, in the order foundation, mounting, installation: its keys are
    exactly the stage names whose sample set is not empty.  No entry has
    sample size 0; the sample size of an entry is the size of the sample set
    of its stage. *)
Theorem stored_table_shape (rows : list row) (t : threshold_table) :
  (Stage5SelfLearning.run (Some rows) = Saved t ->
   table_keys t
   = filter (fun k => negb (no_scores (scores str_lower rows k))) stages
   /\ forall (k : string) (b : threshold_band),
        In (k, b) t ->
        (1 <= sample_size b)%nat
        /\ sample_size b = List.length (scores str_lower rows k))
  /\ (Stage5Working.run (Some rows) = Saved t ->
   table_keys t
   = filter (fun k => negb (no_scores (scores as_read rows k))) stages
   /\ forall (k : string) (b : threshold_band),
        In (k, b) t ->
        (1 <= sample_size b)%nat
        /\ sample_size b = List.length (scores as_read rows k)).
Proof.
  split; intros H.
  - apply (entries_shape Lib.py_round3), self_learning_entries, H.
  - apply (entries_shape Lib.np_round3), working_entries, H.
Qed.

Lemma stored_table_shape_witness :
  table_keys
    [("mounting",
      mkBand (F64.dec 66 2) (F64.dec 11 2) (F64.dec 55 2) (F64.dec 77 2) 2)]
  = filter (fun k => negb (no_scores
                             (scores as_read Logs.corrected_then_confirmed k)))
      stages.
Proof.
  apply (proj2 (stored_table_shape Logs.corrected_then_confirmed _)).
  vm_compute. reflexivity.
Defined.

(** ** Stage 5: when [stage5_self_learning.py] stores a table *)



(** ** Stage 5: every row is counted at most once *)

Lemma cell_eqb_eq (c : cell) (lit : string) : cell_eqb c lit = true -> c = Some lit.
Proof.
  destruct c as [s|]; simpl; [| discriminate].
  intros H. apply String.eqb_eq in H. subst s. reflexivity.
Qed.

Lemma cell_eqb_other (c : cell) (a b : string) :
  a <> b -> cell_eqb c a = true -> cell_eqb c b = false.
Proof.
  intros Hab H. apply cell_eqb_eq in H. subst c. simpl.
  apply String.eqb_neq. exact Hab.
Qed.

Lemma scores_cons (norm : cell -> cell) (r : row) (rows : list row) (s : string) :
  List.length (scores norm (r :: rows) s)
  = (b2n (contributes norm r s) + List.length (scores norm rows s))%nat.
Proof.
  unfold scores, contributes. rewrite !length_app, !length_map. cbn [filter].
  destruct (marked r "no") eqn:Hno.
  - rewrite (marked_no_not_yes r Hno). cbn [andb orb].
    destruct (cell_eqb (norm (corrected_stage r)) s); cbn [List.length b2n]; lia.
  - cbn [andb]. rewrite orb_false_r.
    destruct (marked r "yes" && cell_eqb (norm (predicted_stage r)) s);
      cbn [List.length b2n]; lia.
Qed.

Lemma contributes_once (norm : cell -> cell) (r : row) :
  (b2n (contributes norm r "foundation") + b2n (contributes norm r "mounting")
   + b2n (contributes norm r "installation") <= 1)%nat.
Proof.
  unfold contributes.
  destruct (marked r "no") eqn:Hno.
  - rewrite (marked_no_not_yes r Hno). cbn [andb orb].
    destruct (cell_eqb (norm (corrected_stage r)) "foundation") eqn:F.
    + rewrite (cell_eqb_other _ "foundation" "mounting") by (discriminate || exact F).
      rewrite (cell_eqb_other _ "foundation" "installation") by (discriminate || exact F).
      cbn. lia.
    + destruct (cell_eqb (norm (corrected_stage r)) "mounting") eqn:M.
      * rewrite (cell_eqb_other _ "mounting" "installation") by (discriminate || exact M).
        cbn. lia.
      * destruct (cell_eqb (norm (corrected_stage r)) "installation"); cbn; lia.
  - cbn [andb]. rewrite !orb_false_r.
    destruct (marked r "yes"); [| cbn; lia]. cbn [andb].
    destruct (cell_eqb (norm (predicted_stage r)) "foundation") eqn:F.
    + rewrite (cell_eqb_other _ "foundation" "mounting") by (discriminate || exact F).
      rewrite (cell_eqb_other _ "foundation" "installation") by (discriminate || exact F).
      cbn. lia.
    + destruct (cell_eqb (norm (predicted_stage r)) "mounting") eqn:M.
      * rewrite (cell_eqb_other _ "mounting" "installation") by (discriminate || exact M).
        cbn. lia.
      * destruct (cell_eqb (norm (predicted_stage r)) "installation"); cbn; lia.
Qed.

Lemma scores_total (norm : cell -> cell) (rows : list row) :
  (List.length (scores norm rows "foundation")
   + List.length (scores norm rows "mounting")
   + List.length (scores norm rows "installation") <= List.length rows)%nat.
Proof.
  induction rows as [|r rows IH]; [cbn; lia |].
  rewrite !scores_cons. pose proof (contributes_once norm r). cbn [List.length]. lia.
Qed.

Lemma entries_total (round3 : float -> float) (sc : string -> list float)
    (t : threshold_table) :
  t = map (fun k => (k, band_of Lib.np_mean Lib.np_std round3 (sc k)))
        (filter (fun k => negb (no_scores (sc k))) stages) ->
  list_sum (table_sizes t)
  = (List.length (sc "foundation") + List.length (sc "mounting")
     + List.length (sc "installation"))%nat.
Proof.
  intros ->. unfold table_sizes, stages. cbn [filter].
  destruct (sc "foundation") as [|? ?] eqn:E1, (sc "mounting") as [|? ?] eqn:E2,
    (sc "installation") as [|? ?] eqn:E3;
    cbn [negb no_scores map list_sum snd band_of sample_size fold_right];
    rewrite ?E1, ?E2, ?E3; cbn [List.length]; lia.
Qed.

(** X8. No row of the feedback log is counted twice: in the table a
    learner script stores, the sample sizes add up to at most the number of
    rows of the log. *)
Theorem sample_sizes_bounded (rows : list row) (t : threshold_table) :
  (Stage5SelfLearning.run (Some rows) = Saved t ->
   (list_sum (table_sizes t) <= List.length rows)%nat)
  /\ (Stage5Working.run (Some rows) = Saved t ->
   (list_sum (table_sizes t) <= List.length rows)%nat).
Proof.
  split; intros H.
  - rewrite (entries_total Lib.py_round3 (scores str_lower rows) t
               (self_learning_entries rows t H)).
    apply scores_total.
  - rewrite (entries_total Lib.np_round3 (scores as_read rows) t
               (working_entries rows t H)).
    apply scores_total.
Qed.

Lemma sample_sizes_bounded_witness :
  (list_sum (table_sizes
               [("mounting",
                 mkBand (F64.dec 66 2) (F64.dec 11 2) (F64.dec 55 2)
                   (F64.dec 77 2) 2)])
   <= List.length Logs.corrected_then_confirmed)%nat.
Proof.
  apply (proj1 (sample_sizes_bounded Logs.corrected_then_confirmed _)).
  vm_compute. reflexivity.
Defined.

(** ** Stage 5: the order of the rows *)

Lemma filter_perm {A : Type} (p : A -> bool) (l l' : list A) :
  Permutation l l' -> Permutation (filter p l) (filter p l').
Proof.
  induction 1 as [|a l l' _ IH|a b l|l l' l'' _ IH1 _ IH2]; cbn [filter].
  - apply perm_nil.
  - destruct (p a); [apply perm_skip |]; exact IH.
  - destruct (p a), (p b);
      try apply perm_swap; try apply perm_skip; apply Permutation_refl.
  - eapply perm_trans; eassumption.
Qed.

Lemma scores_perm (norm : cell -> cell) (rows rows' : list row) (s : string) :
  Permutation rows rows' -> Permutation (scores norm rows s) (scores norm rows' s).
Proof.
  intros H. unfold scores.
  apply Permutation_app; apply Permutation_map, filter_perm, H.
Qed.

Lemma no_scores_length (l l' : list float) :
  List.length l = List.length l' -> no_scores l = no_scores l'.
Proof. destruct l, l'; simpl; congruence. Qed.

Lemma entries_perm (round3 : float -> float) (sc sc' : string -> list float)
    (t t' : threshold_table) :
  (forall k : string, List.length (sc k) = List.length (sc' k)) ->
  t = map (fun k => (k, band_of Lib.np_mean Lib.np_std round3 (sc k)))
        (filter (fun k => negb (no_scores (sc k))) stages) ->
  t' = map (fun k => (k, band_of Lib.np_mean Lib.np_std round3 (sc' k)))
         (filter (fun k => negb (no_scores (sc' k))) stages) ->
  table_keys t' = table_keys t /\ table_sizes t' = table_sizes t.
Proof.
  intros Hlen -> ->. unfold table_keys, table_sizes.
  rewrite !map_map. cbn [fst snd band_of sample_size].
  rewrite (filter_ext (fun k => negb (no_scores (sc' k)))
             (fun k => negb (no_scores (sc k))))
    by (intros k; f_equal; apply no_scores_length; symmetry; apply Hlen).
  split; [reflexivity |].
  apply map_ext. intros k. symmetry. apply Hlen.
Qed.

Lemma cleanable_perm (rows rows' : list row) :
  Permutation rows rows' ->
  Stage5SelfLearning.cleanable (read_csv rows)
  = Stage5SelfLearning.cleanable (read_csv rows').
Proof.
  intros H. unfold Stage5SelfLearning.cleanable, read_csv.
  rewrite (filled_str_accessor_perm
             (map is_correct (map read_row rows))
             (map is_correct (map read_row rows')))
    by (apply Permutation_map, Permutation_map, H).
  rewrite (str_accessor_perm
             (map predicted_stage (map read_row rows))
             (map predicted_stage (map read_row rows')))
    by (apply Permutation_map, Permutation_map, H).
  rewrite (filled_str_accessor_perm
             (map corrected_stage (map read_row rows))
             (map corrected_stage (map read_row rows')))
    by (apply Permutation_map, Permutation_map, H).
  reflexivity.
Qed.

Lemma is_correct_perm (rows rows' : list row) :
  Permutation rows rows' ->
  Pandas.str_accessor (map is_correct (read_csv rows))
  = Pandas.str_accessor (map is_correct (read_csv rows')).
Proof.
  intros H. apply str_accessor_perm. unfold read_csv.
  apply Permutation_map, Permutation_map, H.
Qed.

(** X9. Reordering the rows of the feedback log changes neither whether
    a learner script stores a table, nor the stages that table lists, nor
    their sample sizes; the sample set of each stage is only permuted. *)
Theorem reordered_log (rows rows' : list row) :
  Permutation rows rows' ->
  (forall s : string,
     Permutation (scores str_lower rows s) (scores str_lower rows' s)
     /\ Permutation (scores as_read rows s) (scores as_read rows' s))
  /\ (forall t : threshold_table,
        Stage5SelfLearning.run (Some rows) = Saved t ->
        exists t' : threshold_table,
          Stage5SelfLearning.run (Some rows') = Saved t'
          /\ table_keys t' = table_keys t /\ table_sizes t' = table_sizes t)
  /\ (forall code : Z,
        Stage5SelfLearning.run (Some rows) = SystemExit code ->
        Stage5SelfLearning.run (Some rows') = SystemExit code)
  /\ (forall t : threshold_table,
        Stage5Working.run (Some rows) = Saved t ->
        exists t' : threshold_table,
          Stage5Working.run (Some rows') = Saved t'
          /\ table_keys t' = table_keys t /\ table_sizes t' = table_sizes t).
Proof.
  intros Hp. split; [| split; [| split]].
  - intros s. split; apply scores_perm, Hp.
  - intros t Ht.
    assert (Hex : exists t', Stage5SelfLearning.run (Some rows') = Saved t').
    { revert Ht. rewrite !self_learning_run, (existsb_perm _ rows rows' Hp),
        (cleanable_perm rows rows' Hp).
      destruct (Stage5SelfLearning.cleanable _); [| discriminate].
      destruct (existsb _ rows'); [| discriminate]. intros _. eexists. reflexivity. }
    destruct Hex as [t' Ht']. exists t'. split; [exact Ht' |].
    apply (entries_perm Lib.py_round3 (scores str_lower rows)
             (scores str_lower rows')).
    + intros k. apply Permutation_length, scores_perm, Hp.
    + apply self_learning_entries, Ht.
    + apply self_learning_entries, Ht'.
  - intros code. rewrite !self_learning_run, (existsb_perm _ rows rows' Hp),
      (cleanable_perm rows rows' Hp).
    destruct (Stage5SelfLearning.cleanable _); [| discriminate].
    destruct (existsb _ rows'); [discriminate | trivial].
  - intros t Ht.
    assert (Hex : exists t', Stage5Working.run (Some rows') = Saved t').
    { revert Ht. rewrite !working_run, (is_correct_perm rows rows' Hp).
      destruct (Pandas.str_accessor _); [| discriminate].
      intros _. eexists. reflexivity. }
    destruct Hex as [t' Ht']. exists t'. split; [exact Ht' |].
    apply (entries_perm Lib.np_round3 (scores as_read rows) (scores as_read rows')).
    + intros k. apply Permutation_length, scores_perm, Hp.
    + apply working_entries, Ht.
    + apply working_entries, Ht'.
Qed.

Lemma reordered_log_witness :
  Permutation
    (scores as_read Logs.corrected_then_confirmed "mounting")
    (scores as_read (rev Logs.corrected_then_confirmed) "mounting").
Proof.
  apply (proj1 (reordered_log Logs.corrected_then_confirmed
                  (rev Logs.corrected_then_confirmed)
                  (Permutation_rev Logs.corrected_then_confirmed))).
Defined.

(** ** Stage 5: letter case *)

(** X10. On a log whose stage cells are already in lower case, which is
    how the Stage 3 scripts write them, the two learner scripts select the
    same sample set for every stage, so their tables list the same stages
    with the same sample sizes.  Letter case in a stage cell is where they
    part: a confirmed row predicted "Mounting" is a Mounting sample for
    [stage5_self_learning.py] and no sample at all for [stage5_working.py]. *)
Theorem lower_case_log (rows : list row) :
  ((forall r : row,
      In r rows ->
      str_lower (predicted_stage r) = predicted_stage r
      /\ str_lower (corrected_stage r) = corrected_stage r) ->
   (forall s : string, scores str_lower rows s = scores as_read rows s)
   /\ forall t t' : threshold_table,
        Stage5SelfLearning.run (Some rows) = Saved t ->
        Stage5Working.run (Some rows) = Saved t' ->
        table_keys t = table_keys t' /\ table_sizes t = table_sizes t')
  /\ scores str_lower [capitalised_mounting] "mounting" = [F64.dec 75 2]
  /\ scores as_read [capitalised_mounting] "mounting" = [].
Proof.
  split; [| split; vm_compute; reflexivity].
  intros Hlow.
  assert (Hsc : forall s : string, scores str_lower rows s = scores as_read rows s).
  { intros s. unfold scores, as_read.
    f_equal; f_equal; apply filter_ext_in; intros r Hin;
      destruct (Hlow r Hin) as [Hp Hc]; rewrite ?Hp, ?Hc; reflexivity. }
  split; [exact Hsc |].
  intros t t' Ht Ht'.
  pose proof (self_learning_entries rows t Ht) as E.
  pose proof (working_entries rows t' Ht') as E'.
  assert (Hk : table_keys t' = table_keys t /\ table_sizes t' = table_sizes t).
  { unfold table_keys, table_sizes. rewrite E, E', !map_map.
    cbn [fst snd band_of sample_size].
    rewrite (filter_ext (fun k => negb (no_scores (scores as_read rows k)))
               (fun k => negb (no_scores (scores str_lower rows k))))
      by (intros k; rewrite Hsc; reflexivity).
    split; [reflexivity |]. apply map_ext. intros k. rewrite Hsc. reflexivity. }
  destruct Hk as [-> ->]. split; reflexivity.
Qed.

Lemma lower_case_log_witness :
  scores str_lower Logs.corrected_then_confirmed "mounting"
  = scores as_read Logs.corrected_then_confirmed "mounting".
Proof.
  apply (proj1 (lower_case_log Logs.corrected_then_confirmed)).
  intros r [<- | [<- | []]]; split; reflexivity.
Defined.








(** ** Stage 4 *)

Lemma firstn_short {A : Type} (n : nat) (l : list A) :
  (List.length (firstn n l) =? n)%nat = (n <=? List.length l)%nat.
Proof.
  rewrite length_firstn.
  destruct (Nat.leb_spec n (List.length l)) as [H|H].
  - apply Nat.eqb_eq. lia.
  - apply Nat.eqb_neq. lia.
Qed.

(** The frame [stage4_working.py] builds, when it can. *)
Lemma sample_feedback_rows (df : list Stage4Working.prediction) :
  Stage4Working.sample_feedback df
  = if (List.length df <=? 3)%nat
    then inr (map (fun pv =>
                     mkRow (Stage4Working.predicted_stage (fst pv))
                       (Stage4Working.similarity (fst pv))
                       (Some (fst (snd pv))) (Some (snd (snd pv))))
                (combine df (combine (firstn (List.length df) ["yes"; "no"; "yes"])
                               (firstn (List.length df) [""; "installation"; ""]))))
    else inl ValueError.
Proof.
  unfold Stage4Working.sample_feedback, Stage4Working.set_column.
  rewrite !firstn_short. cbn [List.length].
  destruct (List.length df <=? 3)%nat; reflexivity.
Qed.

Lemma existsb_marks (log : list row) :
  existsb (fun r => marked r "no") log
  = existsb (fun b : bool => b) (map (fun r => marked r "no") log).
Proof.
  induction log as [|r log IH]; [reflexivity |].
  cbn [map existsb]. rewrite IH. reflexivity.
Qed.

(** X12. [stage4_working.py] can write its sample feedback log only for a
    Stage 3 summary of at most three rows; with more rows the column
    assignment raises [ValueError].  When it succeeds, the log has one row
    per summary row, the rows are marked yes, no, yes in this order, and the
    row marked no, if there is one, is corrected to installation.  The
    cleaning of [stage5_self_learning.py] succeeds on this log exactly when
    its column [predicted_stage] has a [.str], and on any log carrying these
    marks the script stores a table exactly when the summary has two or
    three rows and the cleaning succeeds. *)
Theorem sample_feedback_limits (df : list Stage4Working.prediction) :
  (Stage4Working.sample_feedback df = inl ValueError
   <-> (3 < List.length df)%nat)
  /\ forall fb : list row,
       Stage4Working.sample_feedback df = inr fb ->
       List.length fb = List.length df
       /\ map is_correct fb
          = firstn (List.length df) [Some "yes"; Some "no"; Some "yes"]
       /\ (forall r : row,
             In r fb -> marked r "no" = true ->
             corrected_stage r = Some "installation")
       /\ Stage5SelfLearning.cleanable (read_csv fb)
          = Pandas.str_accessor
              (map (fun p => Pandas.read_cell (Stage4Working.predicted_stage p)) df)
       /\ forall log : list row,
            map (fun r => marked r "no") log = map (fun r => marked r "no") fb ->
            ((exists t : threshold_table,
                Stage5SelfLearning.run (Some log) = Saved t)
             <-> (2 <= List.length df)%nat
                 /\ Stage5SelfLearning.cleanable (read_csv log) = true).
Proof.
  rewrite sample_feedback_rows. split.
  - destruct (Nat.leb_spec (List.length df) 3) as [H|H]; split;
      try discriminate; try lia. intros _. reflexivity.
  - intros fb Hfb.
    destruct (Nat.leb_spec (List.length df) 3) as [H|H]; [| discriminate Hfb].
    injection Hfb as <-.
    destruct df as [|p1 [|p2 [|p3 [|p4 df]]]];
      [| | | | cbn [List.length] in H; lia];
      (split; [reflexivity | split; [reflexivity | split; [| split]]]).
    all: try (intros r Hin Hno; cbn in Hin;
              repeat (destruct Hin as [<- | Hin]; [try discriminate Hno; reflexivity |]);
              contradiction Hin).
    all: try reflexivity.
    all: try (unfold Stage5SelfLearning.cleanable;
              match goal with
              | |- ?a && ?b && ?c = _ =>
                  replace a with true by (vm_compute; reflexivity);
                  replace c with true by (vm_compute; reflexivity)
              end;
              rewrite andb_true_r; reflexivity).
    all: intros log Hlog; rewrite self_learning_run, existsb_marks, Hlog;
      destruct (Stage5SelfLearning.cleanable (read_csv log));
      cbn; split;
      try (intros [t Ht]; discriminate Ht);
      try (intros [H1 H2]; try discriminate H2; lia);
      try (intros _; split; [lia | reflexivity]);
      try (intros _; eexists; reflexivity).
Qed.

Lemma sample_feedback_limits_witness :
  Stage4Working.sample_feedback
    [ Stage4Working.mkPrediction "a.jpg" (F64.dec 85 2) (Some "installation");
      Stage4Working.mkPrediction "b.jpg" (F64.dec 72 2) (Some "mounting");
      Stage4Working.mkPrediction "c.jpg" (F64.dec 68 2) (Some "foundation");
      Stage4Working.mkPrediction "d.jpg" (F64.dec 41 2) (Some "foundation") ]
  = inl ValueError.
Proof.
  apply (proj1 (sample_feedback_limits _)). cbn. lia.
Defined.

Lemma scores_app_length (norm : cell -> cell) (l1 l2 : list row) (s : string) :
  List.length (scores norm (l1 ++ l2) s)
  = (List.length (scores norm l1 s) + List.length (scores norm l2 s))%nat.
Proof.
  unfold scores. rewrite !filter_app, !length_app, !length_map, !length_app. lia.
Qed.

Lemma entries_grow (round3 : float -> float) (sc sc' : string -> list float)
    (t t' : threshold_table) :
  (forall k : string, (List.length (sc k) <= List.length (sc' k))%nat) ->
  t = map (fun k => (k, band_of Lib.np_mean Lib.np_std round3 (sc k)))
        (filter (fun k => negb (no_scores (sc k))) stages) ->
  t' = map (fun k => (k, band_of Lib.np_mean Lib.np_std round3 (sc' k)))
         (filter (fun k => negb (no_scores (sc' k))) stages) ->
  forall (k : string) (b : threshold_band),
    In (k, b) t ->
    exists b' : threshold_band,
      In (k, b') t' /\ (sample_size b <= sample_size b')%nat.
Proof.
  intros Hle -> -> k b Hin. apply in_map_iff in Hin.
  destruct Hin as (k' & E & Hk). injection E as -> <-.
  apply filter_In in Hk. destruct Hk as [Hst Hne].
  exists (band_of Lib.np_mean Lib.np_std round3 (sc' k)). split.
  - apply in_map_iff. exists k. split; [reflexivity |].
    apply filter_In. split; [exact Hst |].
    specialize (Hle k). destruct (sc k); [discriminate Hne |].
    destruct (sc' k); [cbn in Hle; lia | reflexivity].
  - cbn [band_of sample_size]. apply Hle.
Qed.

Lemma column_app (column : row -> cell) (existing fb_df : list row) :
  map column (read_csv (existing ++ fb_df))
  = ([] ++ map column (read_csv existing) ++ map column (read_csv fb_df))%list.
Proof. unfold read_csv. rewrite !map_app. reflexivity. Qed.

Lemma column_not_nil (column : row -> cell) (existing : list row) :
  existing <> [] -> map column (read_csv existing) <> [].
Proof. destruct existing; [intros H; contradiction H; reflexivity | discriminate]. Qed.

(** A log on which the cleaning succeeds stays cleanable when rows are
    appended. *)
Lemma cleanable_app (existing fb_df : list row) :
  existing <> [] ->
  Stage5SelfLearning.cleanable (read_csv existing) = true ->
  Stage5SelfLearning.cleanable (read_csv (existing ++ fb_df)) = true.
Proof.
  intros Hne H. unfold Stage5SelfLearning.cleanable in *.
  apply andb_true_iff in H. destruct H as [H H3].
  apply andb_true_iff in H. destruct H as [H1 H2].
  rewrite !column_app.
  rewrite (filled_str_accessor_app _ [] _ (column_not_nil is_correct _ Hne) H1).
  rewrite (str_accessor_app _ [] _ (column_not_nil predicted_stage _ Hne) H2).
  rewrite (filled_str_accessor_app _ [] _ (column_not_nil corrected_stage _ Hne) H3).
  reflexivity.
Qed.

(** X13. Saving reviewed feedback with [stage4_feedback_system.py] only
    appends: the old rows stay in front, and for every stage the sample size
    after the save is the old sample size plus that of the new rows (saving
    the same template twice doubles it).  So if [stage5_self_learning.py]
    stored a table before the save it stores one after it, in which every
    stage that had a band keeps one, with a sample size that did not
    decrease; the same holds for [stage5_working.py] when the old log has a
    row.  An old log without rows is the exception: [stage5_working.py]
    stores the empty table on it, and raises [AttributeError] once a template
    that nobody reviewed has been saved to it. *)
Theorem feedback_only_grows (existing fb_df : list row) :
  Stage4FeedbackSystem.save None fb_df = fb_df
  /\ firstn (List.length existing) (Stage4FeedbackSystem.save (Some existing) fb_df)
     = existing
  /\ (forall (norm : cell -> cell) (s : string),
        List.length (scores norm (Stage4FeedbackSystem.save (Some existing) fb_df) s)
        = (List.length (scores norm existing s)
           + List.length (scores norm fb_df s))%nat)
  /\ (forall t : threshold_table,
        existing <> [] ->
        Stage5Working.run (Some existing) = Saved t ->
        exists t' : threshold_table,
          Stage5Working.run (Some (Stage4FeedbackSystem.save (Some existing) fb_df))
          = Saved t'
          /\ forall (k : string) (b : threshold_band),
               In (k, b) t ->
               exists b' : threshold_band,
                 In (k, b') t' /\ (sample_size b <= sample_size b')%nat)
  /\ (forall t : threshold_table,
        Stage5SelfLearning.run (Some existing) = Saved t ->
        exists t' : threshold_table,
          Stage5SelfLearning.run
            (Some (Stage4FeedbackSystem.save (Some existing) fb_df))
          = Saved t'
          /\ forall (k : string) (b : threshold_band),
               In (k, b) t ->
               exists b' : threshold_band,
                 In (k, b') t' /\ (sample_size b <= sample_size b')%nat)
  /\ Stage5Working.run (Some []) = Saved []
  /\ Stage5Working.run
       (Some (Stage4FeedbackSystem.save (Some []) [Logs.unreviewed]))
     = Raised AttributeError.
Proof.
  unfold Stage4FeedbackSystem.save.
  split; [reflexivity | split; [| split; [| split; [| split;
    [| split; vm_compute; reflexivity]]]]].
  - rewrite firstn_app, Nat.sub_diag, firstn_all. cbn [firstn].
    apply app_nil_r.
  - intros norm s. apply scores_app_length.
  - intros t Hne Ht.
    assert (Hex : exists t', Stage5Working.run (Some (existing ++ fb_df)%list)
                             = Saved t').
    { revert Ht. rewrite !working_run.
      destruct (Pandas.str_accessor (map is_correct (read_csv existing))) eqn:E;
        [| discriminate].
      intros _. rewrite column_app.
      rewrite (str_accessor_app _ [] _ (column_not_nil is_correct _ Hne) E).
      eexists. reflexivity. }
    destruct Hex as [t' Ht']. exists t'. split; [exact Ht' |].
    apply (entries_grow Lib.np_round3 (scores as_read existing)
             (scores as_read (existing ++ fb_df))).
    + intros k. rewrite scores_app_length. lia.
    + apply working_entries, Ht.
    + apply working_entries, Ht'.
  - intros t Ht.
    assert (Hex : exists t', Stage5SelfLearning.run (Some (existing ++ fb_df)%list)
                             = Saved t').
    { revert Ht. rewrite !self_learning_run, existsb_app.
      destruct (Stage5SelfLearning.cleanable (read_csv existing)) eqn:E;
        [| discriminate].
      destruct (existsb _ existing) eqn:Hno; [| discriminate].
      intros _.
      assert (Hne : existing <> []) by (intros ->; discriminate Hno).
      rewrite (cleanable_app existing fb_df Hne E).
      eexists. reflexivity. }
    destruct Hex as [t' Ht']. exists t'. split; [exact Ht' |].
    apply (entries_grow Lib.py_round3 (scores str_lower existing)
             (scores str_lower (existing ++ fb_df))).
    + intros k. rewrite scores_app_length. lia.
    + apply self_learning_entries, Ht.
    + apply self_learning_entries, Ht'.
Qed.

Lemma feedback_only_grows_witness :
  exists t' : threshold_table,
    Stage5SelfLearning.run
      (Some (Stage4FeedbackSystem.save (Some Logs.corrected_then_confirmed)
               [Logs.confirmed_mounting]))
    = Saved t'
    /\ forall (k : string) (b : threshold_band),
         In (k, b)
            [("mounting",
              mkBand (F64.dec 66 2) (F64.dec 11 2) (F64.dec 55 2) (F64.dec 77 2) 2)] ->
         exists b' : threshold_band,
           In (k, b') t' /\ (sample_size b <= sample_size b')%nat.
Proof.
  apply (proj1 (proj2 (proj2 (proj2 (proj2
           (feedback_only_grows Logs.corrected_then_confirmed
              [Logs.confirmed_mounting])))))).
  vm_compute. reflexivity.
Defined.

(** ** The driver *)

Lemma filter_all_length {A : Type} (p : A -> bool) (l : list A) :
  (List.length (filter p l) =? List.length l)%nat = forallb p l.
Proof.
  induction l as [|a l IH]; [reflexivity |].
  cbn [filter forallb]. destruct (p a); cbn [List.length andb].
  - exact IH.
  - apply Nat.eqb_neq. pose proof (filter_length_le p l). lia.
Qed.

Lemma stage_num_unique (script script' : string) (num : Z) :
  In (script, num) Pipeline.stages -> In (script', num) Pipeline.stages ->
  script = script'.
Proof.
  unfold Pipeline.stages. cbn [In]. intros H H'.
  repeat match goal with
         | H : _ \/ _ |- _ => destruct H
         | H : False |- _ => contradiction H
         end;
    congruence.
Qed.

(** X14. [run_working_pipeline.py] never stops at a failed stage: whatever
    happens, its summary has an entry for each of the six stages, in order.
    A stage counts as successful only if its script exists and its process
    returns 0, and the run is announced as fully completed exactly when that
    holds for all six scripts. *)
Theorem pipeline_runs_every_stage (w : Pipeline.world) :
  map fst (Pipeline.results w) = [1; 2; 3; 4; 5; 6]
  /\ (forall (script : string) (num : Z),
        In (script, num) Pipeline.stages ->
        (In (num, true) (Pipeline.results w)
         <-> Pipeline.exists_script w script = true
             /\ Pipeline.returncode w script = Some 0))
  /\ (Pipeline.full_pipeline_completed w = true
      <-> forall (script : string) (num : Z),
            In (script, num) Pipeline.stages ->
            Pipeline.exists_script w script = true
            /\ Pipeline.returncode w script = Some 0).
Proof.
  assert (Hstage : forall script : string,
             (Pipeline.exists_script w script = true
              /\ Pipeline.returncode w script = Some 0)
             <-> (if Pipeline.exists_script w script
                  then Pipeline.run_stage w script else false) = true).
  { intros script. unfold Pipeline.run_stage.
    destruct (Pipeline.exists_script w script),
      (Pipeline.returncode w script) as [code|];
      split; try discriminate; try (intros [H1 H2]; discriminate).
    - intros [_ H]. injection H as ->. reflexivity.
    - intros H. apply Z.eqb_eq in H. subst code. split; reflexivity. }
  assert (Hres : Pipeline.results w
                 = map (fun st => (snd st,
                                   if Pipeline.exists_script w (fst st)
                                   then Pipeline.run_stage w (fst st) else false))
                     Pipeline.stages).
  { unfold Pipeline.results. apply map_ext. intros st.
    destruct (Pipeline.exists_script w (fst st)); reflexivity. }
  split; [| split].
  - rewrite Hres, map_map. reflexivity.
  - intros script num Hin. rewrite Hstage, Hres. split.
    + intros H. apply in_map_iff in H. destruct H as ([script' num'] & E & Hin').
      cbn [fst snd] in E. injection E as -> E.
      rewrite (stage_num_unique script script' num Hin Hin'). exact E.
    + intros H. apply in_map_iff. exists (script, num). cbn [fst snd].
      rewrite H. split; [reflexivity | exact Hin].
  - unfold Pipeline.full_pipeline_completed, Pipeline.successful.
    rewrite filter_all_length, forallb_forall, Hres. split.
    + intros H script num Hin. apply Hstage.
      apply (H (num, if Pipeline.exists_script w script
                     then Pipeline.run_stage w script else false)).
      apply in_map_iff. exists (script, num). split; [reflexivity | exact Hin].
    + intros H [num b] Hin. apply in_map_iff in Hin.
      destruct Hin as ([script num'] & E & Hin). cbn [fst snd] in E.
      injection E as <- <-. cbn [snd]. apply Hstage. exact (H script num' Hin).
Qed.

Lemma pipeline_runs_every_stage_witness :
  In (1, true)
     (Pipeline.results (Pipeline.mkWorld (fun _ => true) (fun _ => Some 0))).
Proof.
  apply (proj1 (proj2 (pipeline_runs_every_stage
                         (Pipeline.mkWorld (fun _ => true) (fun _ => Some 0))))
           "stage1_working.py" 1).
  - left. reflexivity.
  - split; reflexivity.
Defined.

(** ** Stage 2 and what Stage 3 makes of its output *)

Lemma results_no_reference (clip_similarity : string -> string -> float)
    (py_sum : list float -> float) (monitoring_images : list string) :
  Stage2ComparesSite.results clip_similarity py_sum [] monitoring_images
  = match monitoring_images with
    | [] => inr []
    | _ => inl ZeroDivisionError
    end.
Proof. destruct monitoring_images; reflexivity. Qed.

Lemma results_with_reference (clip_similarity : string -> string -> float)
    (py_sum : list float -> float) (reference_images monitoring_images : list string) :
  reference_images <> [] ->
  exists rs : list (string * float),
    Stage2ComparesSite.results clip_similarity py_sum reference_images monitoring_images
    = inr rs
    /\ map fst rs = monitoring_images.
Proof.
  intros Hne. induction monitoring_images as [|m rest IH].
  - exists []. split; reflexivity.
  - destruct IH as (rs & Hrs & Hfst).
    cbn [Stage2ComparesSite.results]. rewrite Hrs.
    unfold Stage2ComparesSite.avg_similarity.
    destruct reference_images as [|r refs]; [contradiction Hne; reflexivity |].
    cbn [map]. eexists. split; [reflexivity |].
    cbn [map fst]. rewrite Hfst. reflexivity.
Qed.

Lemma min_five_zero {A : Type} (l : list A) :
  Nat.min 5 (List.length l) = 0%nat <-> l = [].
Proof.
  destruct l as [|a l]; cbn [List.length]; split; intros H;
    try reflexivity; discriminate H.
Qed.

(** X15.  [stage2_compares_site.py] ends with [ZeroDivisionError] exactly
    when there is a monitoring image and no reference image, and with no
    other exception of its own.  Otherwise it writes one record for each of
    the first five monitoring images, in their order and however many there
    are, each with a number as similarity.  On that file
    [stage3_working.py] and [stage3_rule_based_analysis.py] classify as many
    rows, unless there was no monitoring image: then the first raises
    [KeyError] after saving an empty frame and the second exits with 0. *)
Theorem stage2_writes_first_five (clip_similarity : string -> string -> float)
    (py_sum : list float -> float) (gpt_summary : string -> float -> string)
    (reference_images monitoring_images : list string) :
  let out := Stage2ComparesSite.run clip_similarity py_sum gpt_summary
               reference_images monitoring_images in
  (out = inl ZeroDivisionError
   <-> reference_images = [] /\ monitoring_images <> [])
  /\ match out with
     | inl e => e = ZeroDivisionError
     | inr records =>
         map comparison_image records = firstn 5 monitoring_images
         /\ List.length records = Nat.min 5 (List.length monitoring_images)
         /\ (forall c : comparison,
               In c records ->
               exists x : float, comparison_similarity c = Number x)
         /\ match Stage3WorkingScript.run (Some records) with
            | Stage3WorkingScript.Summary df =>
                monitoring_images <> []
                /\ List.length df = Nat.min 5 (List.length monitoring_images)
            | Stage3WorkingScript.Raised e saved =>
                monitoring_images = [] /\ e = KeyError /\ saved = Some []
            end
         /\ match Stage3RuleBasedScript.run (Some records) with
            | Stage3RuleBasedScript.Summary df =>
                monitoring_images <> []
                /\ List.length df = Nat.min 5 (List.length monitoring_images)
            | Stage3RuleBasedScript.Exit code =>
                monitoring_images = [] /\ code = 0%Z
            end
     end.
Proof.
  cbv zeta. unfold Stage2ComparesSite.run.
  destruct reference_images as [|r refs].
  - rewrite results_no_reference.
    destruct monitoring_images as [|m rest].
    + split.
      * split; [intros H; discriminate H | intros [_ H]; contradiction H; reflexivity].
      * cbn. split; [reflexivity |]. split; [reflexivity |].
        split; [intros c [] |]. split; [| split; reflexivity].
        split; [reflexivity | split; reflexivity].
    + split; [| reflexivity].
      split; [intros _; split; [reflexivity | discriminate] | reflexivity].
  - destruct (results_with_reference clip_similarity py_sum (r :: refs)
                monitoring_images) as (rs & Hrs & Hfst); [discriminate |].
    rewrite Hrs.
    split; [split; [intros H; discriminate H | intros [H _]; discriminate H] |].
    set (records := map (fun item : string * float =>
                           mkComparison (fst item) (Number (snd item))
                             (Some (gpt_summary (fst item) (snd item))))
                        (firstn 5 rs)).
    assert (Himg : map comparison_image records = firstn 5 monitoring_images).
    { unfold records. rewrite map_map. cbn [comparison_image].
      rewrite <- Hfst, firstn_map. reflexivity. }
    assert (Hlen : List.length records = Nat.min 5 (List.length monitoring_images)).
    { rewrite <- (length_map comparison_image), Himg. apply length_firstn. }
    assert (Hnum : forall c : comparison,
               In c records -> exists x : float, comparison_similarity c = Number x).
    { intros c Hin. unfold records in Hin. apply in_map_iff in Hin.
      destruct Hin as (item & <- & _). exists (snd item). reflexivity. }
    split; [exact Himg |]. split; [exact Hlen |]. split; [exact Hnum |].
    split.
    + destruct (process_numbers records Hnum) as (results & Hp & Hl).
      unfold Stage3WorkingScript.run. rewrite Hp.
      destruct results as [|res results].
      * split; [| split; reflexivity].
        apply min_five_zero. rewrite <- Hlen, <- Hl. reflexivity.
      * split; [| rewrite Hl; exact Hlen].
        intros Hnil. apply min_five_zero in Hnil.
        rewrite <- Hlen, <- Hl in Hnil. discriminate Hnil.
    + unfold Stage3RuleBasedScript.run.
      destruct records as [|c records'] eqn:Erec.
      * split; [| reflexivity].
        apply min_five_zero. rewrite <- Hlen. reflexivity.
      * split.
        -- intros Hnil. apply min_five_zero in Hnil.
           rewrite <- Hlen in Hnil. discriminate Hnil.
        -- rewrite classify_rows, length_map. exact Hlen.
Qed.

(** ** Computer-vision stage logic *)

Lemma c8_lt_c15 : F64.ltb (F64.dec 8 2) (F64.dec 15 2) = true.
Proof. vm_compute. reflexivity. Qed.

Lemma c5_lt_c2 : F64.ltb (F64.dec 5 2) (F64.dec 2 1) = true.
Proof. vm_compute. reflexivity. Qed.

Lemma cv_stage_cases (e b : float) (n : nat) :
  let r := CVStage.stage_and_panels e b n in
  (fst r = installation
   /\ F64.ltb (F64.dec 15 2) e = true /\ F64.ltb (F64.dec 2 1) b = true
   /\ snd r = Z.of_nat n)
  \/ (fst r = mounting
      /\ (F64.ltb (F64.dec 15 2) e && F64.ltb (F64.dec 2 1) b = false)
      /\ F64.ltb (F64.dec 8 2) e = true /\ F64.ltb (F64.dec 5 2) b = true
      /\ snd r = Z.max 1 (Z.of_nat n / 2))
  \/ (fst r = foundation
      /\ (F64.ltb (F64.dec 8 2) e && F64.ltb (F64.dec 5 2) b = false)
      /\ snd r = 0%Z).
Proof.
  cbv zeta. unfold CVStage.stage_and_panels.
  destruct (F64.ltb (F64.dec 15 2) e && F64.ltb (F64.dec 2 1) b) eqn:Hi.
  - left. apply andb_prop in Hi. destruct Hi as [H1 H2].
    split; [reflexivity |]. split; [exact H1 |]. split; [exact H2 | reflexivity].
  - destruct (F64.ltb (F64.dec 8 2) e && F64.ltb (F64.dec 5 2) b) eqn:Hm.
    + right; left. apply andb_prop in Hm. destruct Hm as [H1 H2].
      split; [reflexivity |]. split; [reflexivity |].
      split; [exact H1 |]. split; [exact H2 | reflexivity].
    + right; right. split; [reflexivity |]. split; reflexivity.
Qed.

(** X16.  The stage that [analyze_uploaded_image] and
    [analyze_image_with_cv] decide never goes back when the edge density and
    the blue ratio both go up or stay.  With at least one large contour the
    panel count does not go back either; with none, an image decided as
    Mounting is given one panel and an image decided as Installation is
    given none. *)
Theorem cv_stage_never_goes_back (edge_density blue_ratio edge_density' blue_ratio' : float)
    (large_contours : nat) :
  F64.leb edge_density edge_density' = true ->
  F64.leb blue_ratio blue_ratio' = true ->
  let r := CVStage.stage_and_panels edge_density blue_ratio large_contours in
  let r' := CVStage.stage_and_panels edge_density' blue_ratio' large_contours in
  (maturity (fst r) <= maturity (fst r'))%Z
  /\ ((1 <= large_contours)%nat -> (snd r <= snd r')%Z)
  /\ (large_contours = 0%nat ->
      fst r = mounting -> fst r' = installation ->
      snd r = 1%Z /\ snd r' = 0%Z).
Proof.
  intros He Hb. cbv zeta.
  pose proof (cv_stage_cases edge_density blue_ratio large_contours) as C.
  pose proof (cv_stage_cases edge_density' blue_ratio' large_contours) as C'.
  cbv zeta in C, C'.
  assert (Hdiv : (1 <= large_contours)%nat ->
                 (Z.max 1 (Z.of_nat large_contours / 2) <= Z.of_nat large_contours)%Z).
  { intros Hn. apply Z.max_lub; [lia |].
    apply Z.div_le_upper_bound; lia. }
  destruct C as [(Hs & H1 & H2 & Hp) | [(Hs & _ & H1 & H2 & Hp) | (Hs & _ & Hp)]];
    rewrite Hs, Hp.
  - (* Installation *)
    pose proof (F64Facts.ltb_leb_trans _ _ _ H1 He) as H1'.
    pose proof (F64Facts.ltb_leb_trans _ _ _ H2 Hb) as H2'.
    destruct C' as [(Hs' & _ & _ & Hp') | [(Hs' & Hn' & _) | (Hs' & Hn' & _)]].
    + rewrite Hs', Hp'. split; [cbn; lia |]. split; [lia | discriminate].
    + rewrite H1', H2' in Hn'. discriminate Hn'.
    + rewrite (F64Facts.ltb_trans _ _ _ c8_lt_c15 H1'),
              (F64Facts.ltb_trans _ _ _ c5_lt_c2 H2') in Hn'.
      discriminate Hn'.
  - (* Mounting *)
    pose proof (F64Facts.ltb_leb_trans _ _ _ H1 He) as H1'.
    pose proof (F64Facts.ltb_leb_trans _ _ _ H2 Hb) as H2'.
    destruct C' as [(Hs' & _ & _ & Hp') | [(Hs' & _ & _ & _ & Hp') | (Hs' & Hn' & _)]].
    + rewrite Hs', Hp'. split; [cbn; lia |]. split; [exact Hdiv |].
      intros -> _ _. split; reflexivity.
    + rewrite Hs', Hp'. split; [cbn; lia |]. split; [lia | discriminate].
    + rewrite H1', H2' in Hn'. discriminate Hn'.
  - (* Foundation *)
    split; [destruct (fst (CVStage.stage_and_panels edge_density' blue_ratio'
                             large_contours)); cbn; lia |].
    split; [| discriminate].
    intros Hn.
    destruct C' as [(_ & _ & _ & Hp') | [(_ & _ & _ & _ & Hp') | (_ & _ & Hp')]];
      rewrite Hp'; lia.
Qed.

Lemma cv_stage_never_goes_back_witness :
  (maturity (fst (CVStage.stage_and_panels (F64.dec 10 2) (F64.dec 10 2) 0))
   <= maturity (fst (CVStage.stage_and_panels (F64.dec 20 2) (F64.dec 30 2) 0)))%Z
  /\ snd (CVStage.stage_and_panels (F64.dec 10 2) (F64.dec 10 2) 0) = 1%Z
  /\ snd (CVStage.stage_and_panels (F64.dec 20 2) (F64.dec 30 2) 0) = 0%Z.
Proof.
  pose proof (cv_stage_never_goes_back
                (F64.dec 10 2) (F64.dec 10 2) (F64.dec 20 2) (F64.dec 30 2) 0%nat
                ltac:(vm_compute; reflexivity) ltac:(vm_compute; reflexivity)) as H.
  cbv zeta in H. destruct H as (Hm & _ & H0).
  split; [exact Hm |].
  apply H0; [reflexivity | vm_compute; reflexivity | vm_compute; reflexivity].
Defined.

(** ** Panel counts per day *)

(** X17.  From one detection file [analyze_progress.py] never reports more
    panels than [generate_report.py], and as many exactly when every
    detection has the class ["solar-pv-panel"].  On the detections
    [stage1_working.py] writes, whose class is ["solar-panel"], the first
    reports none and the second three. *)
Theorem panel_counts_compared (data : list PanelCount.detection) :
  (PanelCount.analyze_progress_panel_count data
   <= PanelCount.generate_report_panels data)%nat
  /\ (PanelCount.analyze_progress_panel_count data
      = PanelCount.generate_report_panels data
      <-> forall d : PanelCount.detection,
            In d data -> PanelCount.class d = "solar-pv-panel")
  /\ PanelCount.analyze_progress_panel_count PanelCount.stage1_working_detections
     = 0%nat
  /\ PanelCount.generate_report_panels PanelCount.stage1_working_detections
     = 3%nat.
Proof.
  unfold PanelCount.analyze_progress_panel_count, PanelCount.generate_report_panels.
  split; [apply filter_length_le |].
  split; [| split; reflexivity].
  rewrite <- Nat.eqb_eq, filter_all_length, forallb_forall.
  split; intros H d Hin.
  - apply String.eqb_eq. exact (H d Hin).
  - apply String.eqb_eq. exact (H d Hin).
Qed.
